(** * bookbot: the automation-script engine of [stats.py]

    A shallow embedding of the action model ([BotAction]), the runtime
    ([BotRuntime]) and the interpreter loop ([BotGUI._runner_loop],
    [BotGUI._execute_action]) of [src/stats.py], with the properties of the
    design document established on it.

    Conventions of the embedding:
    - Python [int] is [Z]; Python [float] is the kernel's binary64 [float],
      so [1.0 - x], [>=] and [max(0.0, x)] are the IEEE operations the
      interpreter performs;
    - Python [dict]s keyed by strings are [gmap string _];
    - a method that mutates [self] is a computation in the monad [M], which
      threads the whole application object and carries Python exceptions;
    - calls that leave the process (pyautogui, time.sleep, tkinter widgets)
      are appended to a log of [Event]s in the order they are made; they
      are taken to return normally. *)

From Stdlib Require Import ZArith Floats Ascii String Lia.
From stdpp Require Import base option list gmap strings pretty sorting.

#[local] Set Warnings "-inexact-float,-clear-no-such-hyp".
#[local] Open Scope string_scope.
#[local] Open Scope Z_scope.

(** ** Python values *)

(** The values a script's JSON, the variable store and the handlers
    manipulate. *)
#[warnings="-register-all"]
Inductive PyVal : Type :=
| VNone
| VBool (b : bool)
| VInt (z : Z)
| VFloat (f : float)
| VStr (s : string)
| VList (l : list PyVal)
| VTuple (l : list PyVal)
| VDict (d : gmap string PyVal).

(** The exceptions that the modelled code can raise. *)
Inductive PyExn : Type :=
| KeyError (key : string)
| TypeError
| ValueError
| AttributeError
| OverflowError.

(** The result of a Python expression: a value or a raised exception. *)
Inductive Res (A : Type) : Type :=
| Ok (a : A)
| Raise (e : PyExn).
Arguments Ok {A} a.
Arguments Raise {A} e.

(** ** Action model (stats.py, lines 84-94) *)

(** [@dataclass class BotAction]: two fields; the dataclass does not check
    the annotations [str] and [Dict[str, Any]], so a field holds whatever
    value it was built with. *)
Record BotAction : Type := mkBotAction {
  type : PyVal;
  params : PyVal
}.

(** [to_dict]: [{"type": self.type, "params": self.params}]. *)
Definition to_dict (self : BotAction) : gmap string PyVal :=
  <["params" := params self]> (<["type" := type self]> ∅).

(** [from_dict]: [BotAction(type=d["type"], params=d.get("params", {}))].
    The subscript [d["type"]] raises [KeyError] on a missing key; [d.get]
    falls back to a fresh empty dict only when the key is missing. *)
Definition from_dict (d : gmap string PyVal) : Res BotAction :=
  match d !! "type" with
  | None => Raise (KeyError "type")
  | Some t => Ok (mkBotAction t (default (VDict ∅) (d !! "params")))
  end.

(** [[a.to_dict() for a in self.actions]] (save_script, line 515). *)
Definition script_to_dicts (script : list BotAction) : list (gmap string PyVal) :=
  to_dict <$> script.

(** [[BotAction.from_dict(d) for d in data]] (load_script, line 529): the
    comprehension stops at the first exception. *)
Fixpoint script_from_dicts (data : list (gmap string PyVal)) : Res (list BotAction) :=
  match data with
  | [] => Ok []
  | d :: data' =>
      match from_dict d with
      | Raise e => Raise e
      | Ok a =>
          match script_from_dicts data' with
          | Raise e => Raise e
          | Ok acts => Ok (a :: acts)
          end
      end
  end.

(** [SUPPORTED_ACTIONS] (lines 69-82). *)
Definition SUPPORTED_ACTIONS : list string :=
  [ "WAIT"; "SCREENSHOT"; "LOAD_TEMPLATE"; "FIND_TEMPLATE"; "CLICK_MATCH";
    "CLICK_AT"; "MOVE_MOUSE"; "CHECK_PIXEL"; "SET_VAR"; "IF_GOTO";
    "PRESS_KEY"; "TYPE_TEXT" ].

(** ** Python built-ins used by the engine *)

(** [max(0.0, x)]: Python's [max] keeps its first argument unless a later
    one compares strictly greater, so a NaN or a negative [x] gives [0.0]. *)
Definition max0 (x : float) : float :=
  if PrimFloat.ltb 0%float x then x else 0%float.

(** [int(x)] on a float: truncation towards zero; NaN raises [ValueError],
    an infinity raises [OverflowError]. *)
Definition int_of_float (f : float) : Res Z :=
  match Prim2SF f with
  | S754_zero _ => Ok 0
  | S754_infinity _ => Raise OverflowError
  | S754_nan => Raise ValueError
  | S754_finite s m e =>
      let a := Z.shiftl (Z.pos m) e in
      Ok (if s then - a else a)
  end.

(** [float(x)] on an int: the nearest binary64 (ties to even);
    [OverflowError] when the int is too large. *)
Definition float_of_int (z : Z) : Res float :=
  let f := SF2Prim (binary_normalize prec emax z 0 false) in
  if PrimFloat.is_infinity f then Raise OverflowError else Ok f.

(** ["." in value]. *)
Fixpoint contains_dot (s : string) : bool :=
  match s with
  | EmptyString => false
  | String c s' => if Ascii.eqb c "."%char then true else contains_dot s'
  end.

(** [value.lower()], on the ASCII letters. The engine only compares the
    result with ["true"] and ["false"], and no character outside ASCII
    lowers to one of their letters. *)
Definition lower_ascii (c : Ascii.ascii) : Ascii.ascii :=
  let n := Ascii.nat_of_ascii c in
  if (Nat.leb 65 n && Nat.leb n 90)%bool then Ascii.ascii_of_nat (n + 32) else c.

Fixpoint lower (s : string) : string :=
  match s with
  | EmptyString => EmptyString
  | String c s' => String (lower_ascii c) (lower s')
  end.

(** The text conversions of the Python runtime that the engine calls and
    that are not part of the repository: parsing a string as an int or a
    float ([None] when Python raises [ValueError]), and printing floats and
    containers. *)
Record PyBuiltins : Type := {
  int_of_str : string → option Z;
  float_of_str : string → option float;
  str_of_float : float → string;
  str_of_container : PyVal → string
}.

(** ** Images, matches and the runtime (stats.py, lines 101-210) *)

(** A BGR frame as [numpy] holds it: [shape[:2]] is [(height, width)] and
    [img[y, x]] is the triple of channels (blue, green, red). *)
Record Image : Type := {
  height : Z;
  width : Z;
  pixel : Z → Z → Z * Z * Z
}.

(** The dict stored in [last_match] (line 161). *)
Record Match : Type := mkMatch {
  m_name : string;
  m_x : Z;
  m_y : Z;
  m_w : Z;
  m_h : Z;
  m_score : float
}.

(** [BotRuntime.__init__] fields; the lock only guards [stop_requested]. *)
Record BotRuntime : Type := mkBotRuntime {
  vars : gmap string PyVal;
  templates : gmap string Image;
  last_screenshot_bgr : option Image;
  last_match : option Match;
  stop_requested : bool
}.

(** Calls that leave the process, as the engine makes them. *)
Inductive Event : Type :=
| EvSleep (secs : float)
| EvScreenshot
| EvClick (x y : Z) (clicks : Z) (button : string) (interval : float)
| EvMoveTo (x y : Z) (duration : float)
| EvPress (key : string)
| EvTypewrite (text : string) (interval : float)
| EvShowWarning (title text : string)
| EvShowInfo (title text : string)
| EvShowError (title text : string) (e : PyExn)
| EvTemplatesListInsert (item : string)
| EvUpdatePreview (rectangles : list (Z * Z * Z * Z)).

(** An input-injection call is a pyautogui call that acts on the mouse or
    the keyboard. *)
Definition is_injection (ev : Event) : bool :=
  match ev with
  | EvClick _ _ _ _ _ | EvMoveTo _ _ _ | EvPress _ | EvTypewrite _ _ => true
  | _ => false
  end.

(** The part of [BotGUI] the engine reads and writes, with the log of the
    calls made so far (oldest first). *)
Record BotGUI : Type := mkBotGUI {
  runtime : BotRuntime;
  actions : list BotAction;
  status_var : string;
  calls : list Event
}.

(** What evaluating an expression does. [eval] is handed the live
    [r.vars] and [r.last_match] (lines 717-720) and an expression can call
    their methods, so besides its value or its exception it leaves the two
    dicts as it pleases: the store afterwards, and the match the
    [last_match] dict then describes ([None] once it is emptied, as
    [not self.last_match] reads it). An expression that leaves the
    [last_match] dict with some of its keys only, or that reaches objects
    other than these two, is outside the model. *)
Record Evaluated : Type := mkEvaluated {
  ev_value : Res PyVal;
  ev_vars : gmap string PyVal;
  ev_last_match : option Match
}.

(** The capability providers: what the screen shows given the calls made
    so far, what [cv2.imread] finds at a path ([None] when the path is not
    a file or cannot be decoded), what [cv2.matchTemplate] followed by
    [cv2.minMaxLoc] returns, and what Python's [eval] does with an
    expression in the environment [{"vars": ..., "last_match": ...}]. *)
Record Providers : Type := {
  screenshot : list Event → Image;
  imread : string → option Image;
  match_template : Image → Image → Z → float * float * (Z * Z) * (Z * Z);
  eval : string → gmap string PyVal → option Match → Evaluated
}.

(** [cv2.TM_*] method numbers. *)
Definition TM_SQDIFF : Z := 0.
Definition TM_SQDIFF_NORMED : Z := 1.
Definition TM_CCORR : Z := 2.
Definition TM_CCORR_NORMED : Z := 3.
Definition TM_CCOEFF : Z := 4.
Definition TM_CCOEFF_NORMED : Z := 5.

(** ** The monad of methods *)

(** A method takes the application object and returns it updated, with a
    value or a raised exception. Updates made before an exception stay. *)
Definition M (A : Type) : Type := BotGUI → Res A * BotGUI.

#[export] Instance M_ret : MRet M := λ A a g, (Ok a, g).

#[export] Instance M_bind : MBind M := λ A B f m g,
  match m g with
  | (Ok a, g') => f a g'
  | (Raise e, g') => (Raise e, g')
  end.

Definition raise {A : Type} (e : PyExn) : M A := λ g, (Raise e, g).

Definition lift {A : Type} (r : Res A) : M A := λ g, (r, g).

(** [try: body except Exception as e: handler]. *)
Definition try_except {A : Type} (body : M A) (handler : PyExn → M A) : M A :=
  λ g, match body g with
       | (Ok a, g') => (Ok a, g')
       | (Raise e, g') => handler e g'
       end.

Definition get_runtime : M BotRuntime := λ g, (Ok (runtime g), g).

Definition put_runtime (r : BotRuntime) : M unit := λ g,
  (Ok tt, mkBotGUI r (actions g) (status_var g) (calls g)).

Definition get_calls : M (list Event) := λ g, (Ok (calls g), g).

(** Make a call that leaves the process. *)
Definition call (ev : Event) : M unit := λ g,
  (Ok tt, mkBotGUI (runtime g) (actions g) (status_var g) (calls g ++ [ev])).

(** [set_status] (lines 323-325). *)
Definition set_status (text : string) : M unit := λ g,
  (Ok tt, mkBotGUI (runtime g) (actions g) text (calls g)).

(** [update_preview] (lines 327-350) only draws. *)
Definition update_preview (rectangles : list (Z * Z * Z * Z)) : M unit :=
  call (EvUpdatePreview rectangles).

#[export] Instance Res_ret : MRet Res := λ A a, Ok a.

#[export] Instance Res_bind : MBind Res := λ A B f r,
  match r with
  | Ok a => f a
  | Raise e => Raise e
  end.

(** Field assignments on [self.runtime]. *)
Definition set_vars (v : gmap string PyVal) (r : BotRuntime) : BotRuntime :=
  mkBotRuntime v (templates r) (last_screenshot_bgr r) (last_match r) (stop_requested r).

Definition set_templates (t : gmap string Image) (r : BotRuntime) : BotRuntime :=
  mkBotRuntime (vars r) t (last_screenshot_bgr r) (last_match r) (stop_requested r).

Definition set_last_screenshot_bgr (i : option Image) (r : BotRuntime) : BotRuntime :=
  mkBotRuntime (vars r) (templates r) i (last_match r) (stop_requested r).

Definition set_last_match (m : option Match) (r : BotRuntime) : BotRuntime :=
  mkBotRuntime (vars r) (templates r) (last_screenshot_bgr r) m (stop_requested r).

Definition set_stop_requested (b : bool) (r : BotRuntime) : BotRuntime :=
  mkBotRuntime (vars r) (templates r) (last_screenshot_bgr r) (last_match r) b.

Definition modify_runtime (f : BotRuntime → BotRuntime) : M unit :=
  r ← get_runtime; put_runtime (f r).

(** The newline of an f-string. *)
Definition nl : string := String (ascii_of_nat 10) EmptyString.

(** [p.get(key, default)]: only a dict has [get]. *)
Definition p_get (p : PyVal) (key : string) (dflt : PyVal) : Res PyVal :=
  match p with
  | VDict d => Ok (default dflt (d !! key))
  | _ => Raise AttributeError
  end.

(** [bool(x)]. *)
Definition py_bool (v : PyVal) : bool :=
  match v with
  | VNone => false
  | VBool b => b
  | VInt z => negb (z =? 0)
  | VFloat f => negb (PrimFloat.eqb f 0%float)
  | VStr s => negb (String.eqb s "")
  | VList l | VTuple l => negb (Nat.eqb (length l) 0)
  | VDict d => negb (Nat.eqb (size d) 0)
  end.

(** [abs(a - b) <= tolerance] on ints. *)
Definition within (a b tolerance : Z) : bool := Z.abs (a - b) <=? tolerance.

(** The score and location [find_template] keeps (lines 153-158). *)
Definition template_score (method : Z) (min_val max_val : float)
    (min_loc max_loc : Z * Z) : float * (Z * Z) :=
  if (method =? TM_SQDIFF) || (method =? TM_SQDIFF_NORMED)
  then (PrimFloat.sub 1%float min_val, min_loc)
  else (max_val, max_loc).

Section Engine.

Context (B : PyBuiltins) (P : Providers).

(** [int(x)]. *)
Definition py_int (v : PyVal) : Res Z :=
  match v with
  | VInt z => Ok z
  | VBool b => Ok (if b then 1 else 0)
  | VFloat f => int_of_float f
  | VStr s => match int_of_str B s with Some z => Ok z | None => Raise ValueError end
  | VNone | VList _ | VTuple _ | VDict _ => Raise TypeError
  end.

(** [float(x)]. *)
Definition py_float (v : PyVal) : Res float :=
  match v with
  | VFloat f => Ok f
  | VInt z => float_of_int z
  | VBool b => Ok (if b then 1%float else 0%float)
  | VStr s => match float_of_str B s with Some f => Ok f | None => Raise ValueError end
  | VNone | VList _ | VTuple _ | VDict _ => Raise TypeError
  end.

(** [str(x)], which is also what an f-string field prints. *)
Definition py_str (v : PyVal) : string :=
  match v with
  | VNone => "None"
  | VBool b => if b then "True" else "False"
  | VInt z => pretty z
  | VFloat f => str_of_float B f
  | VStr s => s
  | VList _ | VTuple _ | VDict _ => str_of_container B v
  end.

(** *** BotRuntime methods *)

Definition request_stop : M unit := modify_runtime (set_stop_requested true).

Definition clear_stop : M unit := modify_runtime (set_stop_requested false).

Definition should_stop : M bool := r ← get_runtime; mret (stop_requested r).

(** [take_screenshot] (lines 126-131). *)
Definition take_screenshot : M Image :=
  seen ← get_calls;
  call EvScreenshot;;
  let bgr := screenshot P seen in
  modify_runtime (set_last_screenshot_bgr (Some bgr));;
  mret bgr.

(** [load_template] (lines 133-141). *)
Definition load_template (name path : string) : M bool :=
  match imread P path with
  | None => mret false
  | Some im =>
      modify_runtime (λ r, set_templates (<[name := im]> (templates r)) r);;
      mret true
  end.

(** [if self.last_screenshot_bgr is None: self.take_screenshot()], then
    read the field. *)
Definition ensure_screenshot : M Image :=
  r ← get_runtime;
  match last_screenshot_bgr r with
  | None => take_screenshot
  | Some bgr => mret bgr
  end.

(** [find_template] (lines 143-164). *)
Definition find_template (name : string) (threshold : float) (method : Z)
    : M (option Match) :=
  src ← ensure_screenshot;
  r ← get_runtime;
  match templates r !! name with
  | None => mret None
  | Some tmpl =>
      let '(min_val, max_val, min_loc, max_loc) := match_template P src tmpl method in
      let '(score, loc) := template_score method min_val max_val min_loc max_loc in
      let h := height tmpl in
      let w := width tmpl in
      if PrimFloat.leb threshold score then
        let m := mkMatch name (fst loc) (snd loc) w h score in
        modify_runtime (set_last_match (Some m));;
        mret (Some m)
      else
        modify_runtime (set_last_match None);;
        mret None
  end.

(** [click_match] (lines 166-173). *)
Definition click_match (button : string) (clicks : Z) (interval : float)
    (center : bool) (offset : Z * Z) : M bool :=
  r ← get_runtime;
  match last_match r with
  | None => mret false
  | Some m =>
      let x := m_x m + (if center then m_w m `div` 2 else 0) + fst offset in
      let y := m_y m + (if center then m_h m `div` 2 else 0) + snd offset in
      call (EvClick x y clicks button interval);;
      mret true
  end.

(** [click_at] (lines 175-177). *)
Definition click_at (x y : Z) (button : string) (clicks : Z) (interval : float)
    : M unit :=
  call (EvClick x y clicks button interval).

(** [move_mouse] (lines 179-181). *)
Definition move_mouse (x y : Z) (duration : float) : M unit :=
  call (EvMoveTo x y (max0 duration)).

(** [press_key] (lines 183-185). *)
Definition press_key (key : string) : M unit :=
  call (EvPress key).

(** [type_text] (lines 187-189). *)
Definition type_text (text : string) (interval : float) : M unit :=
  call (EvTypewrite text (max0 interval)).

(** [check_pixel] (lines 191-203). The target (r, g, b) is compared with
    the frame's (blue, green, red) channel by channel. *)
Definition check_pixel (x y r g b tolerance : Z) : M bool :=
  img ← ensure_screenshot;
  let h := height img in
  let w := width img in
  let xi := x in
  let yi := y in
  if (xi <? 0) || (yi <? 0) || (w <=? xi) || (h <=? yi) then mret false
  else
    let '(br, bg, bb) := pixel img yi xi in
    let '(tr, tg, tb) := (b, g, r) in
    mret (within br tr tolerance && within bg tg tolerance && within bb tb tolerance).

(** [set_var] and [get_var] (lines 205-210). *)
Definition set_var (name : string) (value : PyVal) : M unit :=
  modify_runtime (λ r, set_vars (<[name := value]> (vars r)) r).

Definition get_var (name : string) (dflt : PyVal) : M PyVal :=
  r ← get_runtime; mret (default dflt (vars r !! name)).

(** *** Action handlers (BotGUI._execute_action, lines 608-744) *)

(** [act.type == name]: a value equals a string only if it is that string. *)
Definition type_is (act : BotAction) (name : string) : bool :=
  match type act with
  | VStr t => String.eqb t name
  | _ => false
  end.

(** [str(p.get(key, dflt))], [int(p.get(key, dflt))], [float(...)],
    [bool(...)]. *)
Definition arg_str (p : PyVal) (key : string) (dflt : PyVal) : M string :=
  lift (v ← p_get p key dflt; mret (py_str v)).

Definition arg_int (p : PyVal) (key : string) (dflt : PyVal) : M Z :=
  lift (v ← p_get p key dflt; py_int v).

Definition arg_float (p : PyVal) (key : string) (dflt : PyVal) : M float :=
  lift (v ← p_get p key dflt; py_float v).

Definition arg_bool (p : PyVal) (key : string) (dflt : PyVal) : M bool :=
  lift (v ← p_get p key dflt; mret (py_bool v)).

(** The prefix [f"[{index}] "] of a status line. *)
Definition tag (index : Z) : string := "[" +:+ pretty index +:+ "] ".

Definition exec_WAIT (p : PyVal) (index : Z) : M (option Z) :=
  secs ← arg_float p "seconds" (VFloat 0.5);
  set_status (tag index +:+ "WAIT " +:+ str_of_float B secs +:+ "s");;
  call (EvSleep (max0 secs));;
  mret None.

Definition exec_SCREENSHOT (index : Z) : M (option Z) :=
  set_status (tag index +:+ "SCREENSHOT");;
  take_screenshot;;
  update_preview [];;
  mret None.

Definition exec_LOAD_TEMPLATE (p : PyVal) (index : Z) (test_mode : bool)
    : M (option Z) :=
  name ← arg_str p "name" (VStr "template");
  path ← arg_str p "path" (VStr "");
  set_status (tag index +:+ "LOAD_TEMPLATE " +:+ name);;
  ok ← load_template name path;
  (if ok && test_mode
   then call (EvTemplatesListInsert (name +:+ " -> " +:+ path))
   else mret tt);;
  (if negb ok
   then call (EvShowWarning "LOAD_TEMPLATE"
                ("Failed to load template '" +:+ name +:+ "' at '" +:+ path +:+ "'"))
   else mret tt);;
  mret None.

Definition exec_FIND_TEMPLATE (p : PyVal) (index : Z) : M (option Z) :=
  name ← arg_str p "name" (VStr "template");
  threshold ← arg_float p "threshold" (VFloat 0.85);
  set_status (tag index +:+ "FIND_TEMPLATE " +:+ name +:+ " thr="
              +:+ str_of_float B threshold);;
  m ← find_template name threshold TM_CCOEFF_NORMED;
  match m with
  | Some m =>
      set_var "last_match_score" (VFloat (m_score m));;
      set_var "last_match_name" (VStr (m_name m));;
      set_var "last_match_xy" (VTuple [VInt (m_x m); VInt (m_y m)]);;
      update_preview [(m_x m, m_y m, m_w m, m_h m)]
  | None =>
      set_var "last_match_score" VNone;;
      set_var "last_match_name" VNone;;
      set_var "last_match_xy" VNone;;
      update_preview []
  end;;
  mret None.

Definition exec_CLICK_MATCH (p : PyVal) (index : Z) : M (option Z) :=
  button ← arg_str p "button" (VStr "left");
  clicks ← arg_int p "clicks" (VInt 1);
  interval ← arg_float p "interval" (VFloat 0.05);
  center ← arg_bool p "center" (VBool true);
  ox ← arg_int p "offset_x" (VInt 0);
  oy ← arg_int p "offset_y" (VInt 0);
  set_status (tag index +:+ "CLICK_MATCH " +:+ button +:+ " x" +:+ pretty clicks);;
  ok ← click_match button clicks interval center (ox, oy);
  (if negb ok
   then call (EvShowInfo "CLICK_MATCH" "No last match to click.")
   else mret tt);;
  mret None.

Definition exec_CLICK_AT (p : PyVal) (index : Z) : M (option Z) :=
  x ← arg_int p "x" (VInt 0);
  y ← arg_int p "y" (VInt 0);
  button ← arg_str p "button" (VStr "left");
  clicks ← arg_int p "clicks" (VInt 1);
  interval ← arg_float p "interval" (VFloat 0.05);
  set_status (tag index +:+ "CLICK_AT " +:+ pretty x +:+ "," +:+ pretty y);;
  click_at x y button clicks interval;;
  mret None.

Definition exec_MOVE_MOUSE (p : PyVal) (index : Z) : M (option Z) :=
  x ← arg_int p "x" (VInt 0);
  y ← arg_int p "y" (VInt 0);
  duration ← arg_float p "duration" (VFloat 0.2);
  set_status (tag index +:+ "MOVE_MOUSE " +:+ pretty x +:+ "," +:+ pretty y);;
  move_mouse x y duration;;
  mret None.

Definition exec_CHECK_PIXEL (p : PyVal) (index : Z) : M (option Z) :=
  x ← arg_int p "x" (VInt 0);
  y ← arg_int p "y" (VInt 0);
  r0 ← arg_int p "r" (VInt 255);
  g0 ← arg_int p "g" (VInt 255);
  b0 ← arg_int p "b" (VInt 255);
  tol ← arg_int p "tolerance" (VInt 10);
  varname ← arg_str p "set_var" (VStr "pixel_ok");
  set_status (tag index +:+ "CHECK_PIXEL " +:+ pretty x +:+ "," +:+ pretty y);;
  ok ← check_pixel x y r0 g0 b0 tol;
  set_var varname (VBool ok);;
  update_preview [];;
  mret None.

(** The cast of basic literals in SET_VAR (lines 697-709). *)
Definition cast_literal (value : PyVal) : PyVal :=
  match value with
  | VStr s =>
      let lv := lower s in
      if String.eqb lv "true" || String.eqb lv "false"
      then VBool (String.eqb lv "true")
      else if contains_dot s
      then match float_of_str B s with Some f => VFloat f | None => value end
      else match int_of_str B s with Some z => VInt z | None => value end
  | _ => value
  end.

Definition exec_SET_VAR (p : PyVal) (index : Z) : M (option Z) :=
  name ← arg_str p "name" (VStr "flag");
  value ← lift (p_get p "value" (VStr ""));
  let value := cast_literal value in
  set_status (tag index +:+ "SET_VAR " +:+ name +:+ "=" +:+ py_str value);;
  set_var name value;;
  update_preview [];;
  mret None.

(** IF_GOTO (lines 714-725): the evaluation may change the variables and
    the last match, also when it ends in an exception; an exception counts
    as false; a true condition returns the raw target. *)
Definition exec_IF_GOTO (p : PyVal) (index : Z) : M (option Z) :=
  expr ← arg_str p "expr" (VStr "False");
  target ← arg_int p "index" (VInt 0);
  r ← get_runtime;
  set_status (tag index +:+ "IF_GOTO -> " +:+ pretty target);;
  let evaluated := eval P expr (vars r) (last_match r) in
  modify_runtime
    (λ r, set_last_match (ev_last_match evaluated) (set_vars (ev_vars evaluated) r));;
  let result :=
    match ev_value evaluated with
    | Ok v => py_bool v
    | Raise _ => false
    end in
  if result then mret (Some target) else mret None.

Definition exec_PRESS_KEY (p : PyVal) (index : Z) : M (option Z) :=
  key ← arg_str p "key" (VStr "enter");
  set_status (tag index +:+ "PRESS_KEY " +:+ key);;
  press_key key;;
  mret None.

Definition exec_TYPE_TEXT (p : PyVal) (index : Z) : M (option Z) :=
  txt ← arg_str p "text" (VStr "");
  interval ← arg_float p "interval" (VFloat 0.02);
  set_status (tag index +:+ "TYPE_TEXT '" +:+ txt +:+ "'");;
  type_text txt interval;;
  mret None.

(** The [if]/[elif] chain on [act.type]. *)
Definition dispatch (act : BotAction) (index : Z) (test_mode : bool)
    : M (option Z) :=
  let p := params act in
  if type_is act "WAIT" then exec_WAIT p index
  else if type_is act "SCREENSHOT" then exec_SCREENSHOT index
  else if type_is act "LOAD_TEMPLATE" then exec_LOAD_TEMPLATE p index test_mode
  else if type_is act "FIND_TEMPLATE" then exec_FIND_TEMPLATE p index
  else if type_is act "CLICK_MATCH" then exec_CLICK_MATCH p index
  else if type_is act "CLICK_AT" then exec_CLICK_AT p index
  else if type_is act "MOVE_MOUSE" then exec_MOVE_MOUSE p index
  else if type_is act "CHECK_PIXEL" then exec_CHECK_PIXEL p index
  else if type_is act "SET_VAR" then exec_SET_VAR p index
  else if type_is act "IF_GOTO" then exec_IF_GOTO p index
  else if type_is act "PRESS_KEY" then exec_PRESS_KEY p index
  else if type_is act "TYPE_TEXT" then exec_TYPE_TEXT p index
  else
    call (EvShowWarning "Unknown Action"
            ("Unknown action type: " +:+ py_str (type act)));;
    mret None.

(** [len(self.actions)]. *)
Definition len (g : BotGUI) : Z := Z.of_nat (length (actions g)).

(** [_execute_action]: the index guard, then the handler under the
    [try]/[except Exception] that reports and returns [None]. The result is
    the jump target, if any; no exception leaves the method. *)
Definition _execute_action (index : Z) (test_mode : bool) (g : BotGUI)
    : option Z * BotGUI :=
  if (index <? 0) || (len g <=? index) then (None, g)
  else
    match actions g !! Z.to_nat index with
    | None => (None, g)
    | Some act =>
        match dispatch act index test_mode g with
        | (Ok jumped, g') => (jumped, g')
        | (Raise e, g') =>
            let text := "Error at action #" +:+ pretty index +:+ " ("
                        +:+ py_str (type act) +:+ "):" +:+ nl in
            (None, snd (call (EvShowError "Action Error" text e) g'))
        end
    end.

(** *** Runner (lines 580-606) *)

(** [stop_script], called by the controlling thread. *)
Definition stop_script : M unit :=
  request_stop;;
  set_status "Stopping...".

(** The states of a run. *)
Inductive RunState : Type := RUNNING | STOPPED | DONE.

(** What is known of a run: its state, the program counter [i], the
    application object, and the indexes passed to [_execute_action], in
    order. *)
Record Outcome : Type := mkOutcome {
  run_state : RunState;
  pc : Z;
  gui : BotGUI;
  fetched : list Z
}.

(** [i = max(0, min(len(self.actions) - 1, jumped))]. *)
Definition clamp_jump (n jumped : Z) : Z := Z.max 0 (Z.min (n - 1) jumped).

(** The [while] loop of [_runner_loop]. The controlling thread runs beside
    it: [tape] tells, for each time the loop comes back to its head (the
    test [i < len(self.actions)], then the test of [should_stop]), whether
    [stop_script] was called since the time before. No handler and neither
    test of the head reads what [stop_script] writes before [should_stop]
    does, so a call made while an action is in flight has its effect at the
    next head, also when that head finds the script finished. Past the end
    of the tape no call is made: a finished script is done, and with an
    action left the run is still [RUNNING]. *)
Fixpoint runner_while (tape : list bool) (i : Z) (g : BotGUI) : Outcome :=
  match tape with
  | [] =>
      if i <? len g then mkOutcome RUNNING i g []
      else mkOutcome DONE i (snd (set_status "Done" g)) []
  | stop_called :: tape' =>
      let g1 := if stop_called then snd (stop_script g) else g in
      if i <? len g1 then
        match should_stop g1 with
        | (Ok true, g2) => mkOutcome STOPPED i (snd (set_status "Stopped" g2)) []
        | (_, g2) =>
            let '(jumped, g3) := _execute_action i false g2 in
            let i' :=
              match jumped with
              | Some t => clamp_jump (len g3) t
              | None => i + 1
              end in
            let rest := runner_while tape' i' g3 in
            mkOutcome (run_state rest) (pc rest) (gui rest) (i :: fetched rest)
        end
      else mkOutcome DONE i (snd (set_status "Done" g1)) []
  end.

(** [_runner_loop]. *)
Definition _runner_loop (tape : list bool) (g : BotGUI) : Outcome :=
  runner_while tape 0 (snd (set_status "Running" g)).

(** [run_script], when no run is alive: clear the stop flag and run. *)
Definition run_script (tape : list bool) (g : BotGUI) : Outcome :=
  _runner_loop tape (snd (clear_stop g)).

End Engine.

(** ** Script files and the script editor (stats.py, lines 456-538) *)

(** The listboxes mirror [self.actions] and the registry for display; the
    selection of the action listbox is what [_selected_action_index]
    returns, an index or [None]. An [IndexError] is the [None] of an
    [option] result. *)

(** [_confirm_discard] (lines 535-538): the user is only asked when there
    is a script to lose; [answer] is what the user says when asked. *)
Definition _confirm_discard (answer : bool) (g : BotGUI) : bool :=
  match actions g with
  | [] => true
  | _ => answer
  end.

(** [for d in data]: what iterating a JSON value yields. The keys of a dict
    and the characters of a string are strings. *)
Definition py_iter (data : PyVal) : Res (list PyVal) :=
  match data with
  | VList l | VTuple l => Ok l
  | VDict d => Ok ((λ kv, VStr kv.1) <$> map_to_list d)
  | VStr s => Ok ((λ c, VStr (String c EmptyString)) <$> list_ascii_of_string s)
  | VNone | VBool _ | VInt _ | VFloat _ => Raise TypeError
  end.

(** [BotAction.from_dict(d)] on whatever the file holds: only a dict can be
    subscripted with ["type"]. *)
Definition from_dict_value (d : PyVal) : Res BotAction :=
  match d with
  | VDict d => from_dict d
  | _ => Raise TypeError
  end.

(** [[BotAction.from_dict(d) for d in data]] (line 529). *)
Fixpoint from_dict_each (items : list PyVal) : Res (list BotAction) :=
  match items with
  | [] => Ok []
  | d :: items' =>
      a ← from_dict_value d;
      acts ← from_dict_each items';
      mret (a :: acts)
  end.

Definition put_actions (acts : list BotAction) : M unit := λ g,
  (Ok tt, mkBotGUI (runtime g) acts (status_var g) (calls g)).

(** [load_script] (lines 520-533). [answer] is the user's reply if asked to
    discard, [path] the file chosen (empty when the dialog is cancelled),
    [file] what [json.load] gives for it or the exception of reading.
    [_refresh_actions_list] redraws the listbox from values that came out
    of JSON, which [json.dumps] always prints. *)
Definition load_script (answer : bool) (path : string) (file : Res PyVal)
    : M unit := λ g,
  if negb (_confirm_discard answer g) then (Ok tt, g)
  else if String.eqb path "" then (Ok tt, g)
  else
    try_except
      (data ← lift file;
       items ← lift (py_iter data);
       acts ← lift (from_dict_each items);
       put_actions acts;;
       set_status ("Loaded: " +:+ path))
      (λ e, call (EvShowError "Error" ("Failed to load script:" +:+ nl) e))
      g.

(** [new_script] (lines 502-509). *)
Definition new_script (answer : bool) : M unit := λ g,
  if negb (_confirm_discard answer g) then (Ok tt, g)
  else
    (put_actions [];;
     modify_runtime (set_vars ∅);;
     modify_runtime (set_last_match None);;
     set_status "New script") g.

(** [self.actions[i], self.actions[j] = self.actions[j], self.actions[i]]:
    both reads come first. *)
Definition swap (i j : nat) (acts : list BotAction) : option (list BotAction) :=
  a ← acts !! j;
  b ← acts !! i;
  Some (<[j := b]> (<[i := a]> acts)).

(** The cast of [_collect_params] on the text of one entry (lines
    440-451). *)
Definition auto_cast (B : PyBuiltins) (v : string) : PyVal :=
  if String.eqb (lower v) "true" || String.eqb (lower v) "false"
  then VBool (String.eqb (lower v) "true")
  else if contains_dot v
  then match float_of_str B v with Some f => VFloat f | None => VStr v end
  else match int_of_str B v with Some z => VInt z | None => VStr v end.

(** [_collect_params] (lines 437-452): [entries] are the labels of the
    parameter form with the texts typed in them, in form order. *)
Definition _collect_params (B : PyBuiltins) (entries : list (string * string))
    : gmap string PyVal :=
  foldl (λ params kv, <[kv.1 := auto_cast B kv.2]> params) ∅ entries.

(** [add_action] (lines 456-461): [t] is the kind chosen in the form. *)
Definition add_action (B : PyBuiltins) (t : string)
    (entries : list (string * string)) : M unit := λ g,
  let params := _collect_params B entries in
  let act := mkBotAction (VStr t) (VDict params) in
  put_actions (actions g ++ [act]) g.

(** [move_action_up] (lines 470-476): the new script and the selection. *)
Definition move_action_up (idx : option nat) (acts : list BotAction)
    : option (list BotAction * option nat) :=
  match idx with
  | None | Some O => Some (acts, idx)
  | Some (S i) =>
      acts' ← swap i (S i) acts;
      Some (acts', Some i)
  end.

(** [move_action_down] (lines 478-484). *)
Definition move_action_down (idx : option nat) (acts : list BotAction)
    : option (list BotAction * option nat) :=
  match idx with
  | None => Some (acts, idx)
  | Some i =>
      if Z.of_nat (length acts) - 1 <=? Z.of_nat i then Some (acts, idx)
      else
        acts' ← swap (S i) i acts;
        Some (acts', Some (S i))
  end.

(** ** The book statistics (stats.py, lines 1-46) *)

(** Here the characters of a text matter one by one, so a Python [str] is
    the list of its code points. An ASCII literal is the list of its
    bytes. *)
Definition lit (s : string) : list N := N_of_ascii <$> list_ascii_of_string s.

(** [f"{n}"] for an int. *)
Definition str_int (n : Z) : list N := lit (pretty n).

(** An entry of the list [sort_dict] builds: [{"char": d, "num": n}]. *)
Record CharNum : Type := mkCharNum {
  char : N;
  num : Z
}.

(** [sort_on] (lines 27-28). *)
Definition sort_on (items : CharNum) : Z := num items.

(** [dicts.sort(key=sort_on, reverse=True)]: Python's sort is stable, also
    with [reverse=True], so the result is the list in decreasing order of
    the key with equal keys in their original order. [insert_desc] puts an
    entry that came first before the sorted rest's entries with a key not
    above its own. *)
Fixpoint insert_desc (x : CharNum) (l : list CharNum) : list CharNum :=
  match l with
  | [] => [x]
  | y :: l' =>
      if sort_on x <? sort_on y then y :: insert_desc x l' else x :: y :: l'
  end.

Fixpoint sort_desc (l : list CharNum) : list CharNum :=
  match l with
  | [] => []
  | x :: l' => insert_desc x (sort_desc l')
  end.

(** A [dict] from characters to ints, in insertion order (the order the
    loop of [sort_dict] sees): an association list without repeated
    keys. [dict_incr] is [char_count[i] += 1] for a key that is there. *)
Fixpoint dict_incr (i : N) (d : list (N * Z)) : list (N * Z) :=
  match d with
  | [] => []
  | (k, n) :: d' => if decide (k = i) then (k, n + 1) :: d' else (k, n) :: dict_incr i d'
  end.

(** [i in char_count]. *)
Definition dict_has (i : N) (d : list (N * Z)) : bool :=
  bool_decide (i ∈ d.*1).

(** The body of the loop of [get_uniq_char_count] (lines 10-13). *)
Definition count_one (char_count : list (N * Z)) (i : N) : list (N * Z) :=
  if dict_has i char_count then dict_incr i char_count
  else (char_count ++ [(i, 1)])%list.

(** The newline, as a text. *)
Definition newline : list N := lit nl.

(** The line of one entry: [f"{s['char']}: {s['num']}"]. *)
Definition report_line (s : CharNum) : list N :=
  (char s :: lit ": " ++ str_int (num s))%list.

(** The body of the loop of [generate_report] (lines 32-36). *)
Definition add_line (text : list N) (s : CharNum) : list N :=
  if (length text =? 0)%nat then (text ++ report_line s)%list
  else (text ++ newline ++ report_line s)%list.

(** [generate_report] (lines 30-46). *)
Definition generate_report (word_count : Z) (sorted_dicts : list CharNum)
    (book_path : list N) : list N :=
  let text := foldl add_line [] sorted_dicts in
  (newline
   ++ lit "============ BOOKBOT ============" ++ newline
   ++ lit "Analyzing book found at " ++ book_path ++ lit "..." ++ newline
   ++ lit "----------- Word Count ----------" ++ newline
   ++ lit "Found " ++ str_int word_count ++ lit " total words" ++ newline
   ++ lit "--------- Character Count -------" ++ newline
   ++ text ++ newline
   ++ lit "============= END ===============" ++ newline)%list.

Section Book.

(** The Unicode tables behind [str.lower], [str.isalpha] and the
    whitespace [str.split] cuts at are not part of the repository. *)
Context (str_lower : list N → list N) (isalpha isspace : N → bool).

(** [file_contents.split()]: the maximal runs of characters that are not
    whitespace, in order; [word] is the run being read. *)
Fixpoint split_from (word : list N) (s : list N) : list (list N) :=
  match s with
  | [] => match word with [] => [] | _ => [word] end
  | c :: s' =>
      if isspace c
      then match word with [] => split_from [] s' | _ => word :: split_from [] s' end
      else split_from (word ++ [c]) s'
  end.

Definition split (s : list N) : list (list N) := split_from [] s.

(** [get_num_words] (lines 1-5). *)
Definition get_num_words (file_contents : list N) : Z :=
  let word_list := split file_contents in
  Z.of_nat (length word_list).

(** [get_uniq_char_count] (lines 7-14). *)
Definition get_uniq_char_count (file_contents : list N) : list (N * Z) :=
  foldl count_one [] (str_lower file_contents).

(** [sort_dict] (lines 16-25): [dict[d]] for a key [d] of [dict.keys()] is
    the value stored with [d]. *)
Definition sort_dict (dict : list (N * Z)) : list CharNum :=
  let dicts :=
    (λ kv, mkCharNum kv.1 kv.2) <$> filter (λ kv, isalpha kv.1 = true) dict in
  sort_desc dicts.

End Book.

(** ** Stand-ins for the providers, for the examples *)

(** A 4x3 frame whose pixel at column [x], row [y] has channels
    (blue, green, red) = (10 x, 10 y, 200). *)
Definition test_frame : Image :=
  {| height := 3; width := 4; pixel := λ y x, (10 * x, 10 * y, 200) |}.

(** A 2x2 template. *)
Definition test_template : Image :=
  {| height := 2; width := 2; pixel := λ _ _, (0, 0, 0) |}.

(** Text conversions that answer the few inputs the examples use. *)
Definition test_builtins : PyBuiltins :=
  {| int_of_str := λ s, if String.eqb s "0" then Some 0 else None;
     float_of_str := λ _, None;
     str_of_float := λ _, "<float>";
     str_of_container := λ _, "<container>" |}.

(** The stand-in [eval]: the two literals ["True"] and ["False"], which
    change nothing; an expression that writes a variable and is true; one
    that empties the last match and is [None], or raises when there is no
    match to empty; anything else raises and changes nothing. *)
Definition test_eval (expr : string) (v : gmap string PyVal) (m : option Match)
    : Evaluated :=
  if String.eqb expr "True" then mkEvaluated (Ok (VBool true)) v m
  else if String.eqb expr "False" then mkEvaluated (Ok (VBool false)) v m
  else if String.eqb expr "vars.update(a=1) or True"
  then mkEvaluated (Ok (VBool true)) (<["a" := VInt 1]> v) m
  else if String.eqb expr "last_match.clear()"
  then match m with
       | Some _ => mkEvaluated (Ok VNone) v None
       | None => mkEvaluated (Raise AttributeError) v None
       end
  else mkEvaluated (Raise ValueError) v m.

(** Providers for the examples: the screen always shows [test_frame], no
    file can be read, the matcher reports a lowest value of 3 at (0, 0)
    and a highest value of 1000 at (1, 1) whatever it is given, and [eval]
    is [test_eval]. *)
Definition test_providers : Providers :=
  {| screenshot := λ _, test_frame;
     imread := λ _, None;
     match_template := λ _ _ _, (3%float, 1000%float, (0, 0), (1, 1));
     eval := test_eval |}.

(** The same, with one file that can be read. *)
Definition reading_providers : Providers :=
  {| screenshot := λ _, test_frame;
     imread := λ path, if String.eqb path "t.png" then Some test_template else None;
     match_template := λ _ _ _, (3%float, 1000%float, (0, 0), (1, 1));
     eval := test_eval |}.

Definition empty_runtime : BotRuntime :=
  mkBotRuntime ∅ ∅ None None false.

(** The application object with a script loaded and nothing run yet. *)
Definition fresh_gui (script : list BotAction) : BotGUI :=
  mkBotGUI empty_runtime script "" [].

Definition action (kind : string) (p : list (string * PyVal)) : BotAction :=
  mkBotAction (VStr kind) (VDict (list_to_map p)).

(** A match left by an earlier successful FIND_TEMPLATE. *)
Definition earlier_match : Match := mkMatch "ok" 10 20 6 4 1%float.

(** A runtime with a cached frame, one template ["ok"] and a last match. *)
Definition busy_runtime : BotRuntime :=
  mkBotRuntime ∅ {["ok" := test_template]} (Some test_frame) (Some earlier_match) false.

Definition busy_gui (script : list BotAction) : BotGUI :=
  mkBotGUI busy_runtime script "" [].

(** [SET_VAR i=0], then an IF_GOTO that always jumps, to index -5. *)
Definition looping_script : list BotAction :=
  [ action "SET_VAR" [("name", VStr "i"); ("value", VInt 0)];
    action "IF_GOTO" [("expr", VStr "True"); ("index", VInt (-5))] ].

(** Two actions and no jump. *)
Definition straight_script : list BotAction :=
  [ action "SET_VAR" [("name", VStr "i"); ("value", VInt 0)];
    action "PRESS_KEY" [("key", VStr "enter")] ].

(** A click with a negative interval. *)
Definition negative_interval_script : list BotAction :=
  [ action "CLICK_AT" [("x", VInt 5); ("y", VInt 7); ("interval", VFloat (-1))] ].

(** An action with a lower-case type, one without a mapping for params,
    and a script that waits and types with negative timings. *)
Definition lowercase_script : list BotAction :=
  [ action "wait" [("seconds", VInt 1)] ].

Definition null_params_script : list BotAction :=
  [ mkBotAction (VStr "WAIT") VNone ].

Definition negative_timing_script : list BotAction :=
  [ action "WAIT" [("seconds", VFloat (-3))];
    action "TYPE_TEXT" [("text", VStr "hi"); ("interval", VFloat (-1))];
    action "MOVE_MOUSE" [("duration", VFloat (-2))] ].

(** An IF_GOTO whose expression the stand-in [eval] cannot evaluate. *)
Definition failing_condition_script : list BotAction :=
  [ action "IF_GOTO" [("expr", VStr "1/0"); ("index", VInt 0)];
    action "PRESS_KEY" [] ].

Definition find_script : list BotAction :=
  [ action "FIND_TEMPLATE" [("name", VStr "ok"); ("threshold", VFloat 0.5)] ].

Definition check_script : list BotAction :=
  [ action "CHECK_PIXEL"
      [("x", VInt 2); ("y", VInt 1); ("r", VInt 190); ("g", VInt 10);
       ("b", VInt 30); ("set_var", VStr "seen")] ].

(** The contents of two script files: two good records, and a good record
    followed by one without a type. *)
Definition good_file : PyVal :=
  VList [ VDict (list_to_map [("type", VStr "WAIT")]);
          VDict (list_to_map [("type", VStr "PRESS_KEY");
                              ("params", VDict (list_to_map [("key", VStr "a")]))]) ].

Definition bad_file : PyVal :=
  VList [ VDict (list_to_map [("type", VStr "WAIT")]);
          VDict (list_to_map [("params", VDict ∅)]) ].

(** ASCII stand-ins for the Unicode tables. *)
Definition ascii_lower (text : list N) : list N :=
  (λ c, if (65 <=? c)%N && (c <=? 90)%N then (c + 32)%N else c) <$> text.

Definition ascii_isalpha (c : N) : bool :=
  ((65 <=? c)%N && (c <=? 90)%N) || ((97 <=? c)%N && (c <=? 122)%N).

Definition ascii_isspace (c : N) : bool :=
  ((9 <=? c)%N && (c <=? 13)%N) || ((28 <=? c)%N && (c <=? 32)%N).

Definition click_script : list BotAction :=
  [ action "CLICK_MATCH" [("clicks", VInt 2); ("offset_x", VInt 1)] ].

(** A template file that [reading_providers] can read. *)
Definition loading_script : list BotAction :=
  [ action "LOAD_TEMPLATE" [("name", VStr "btn"); ("path", VStr "t.png")] ].

(** Conditions with an effect: a true one that writes a variable, and a
    false one that empties the last match. *)
Definition writing_condition_script : list BotAction :=
  [ action "IF_GOTO" [("expr", VStr "vars.update(a=1) or True"); ("index", VInt 0)] ].

Definition clearing_condition_script : list BotAction :=
  [ action "IF_GOTO" [("expr", VStr "last_match.clear()"); ("index", VInt 0)];
    action "CLICK_MATCH" [] ].

(** ** Notions used in the statements *)

(** [self.runtime.stop_requested]. *)
Definition stop_flag (g : BotGUI) : bool := stop_requested (runtime g).

(** What the loop relies on from one test to the next: the script and the
    stop flag. *)
Definition loop_view (g : BotGUI) : list BotAction * bool :=
  (actions g, stop_flag g).

(** A method keeps the loop's view when it leaves the script and the stop
    flag as they were, whatever it returns or raises. *)
Definition keeps {A : Type} (m : M A) : Prop :=
  ∀ g, loop_view (m g).2 = loop_view g.

(** The application once the head of the tape is heard: a call of
    [stop_script], or nothing. *)
Definition heard (tape : list bool) (g : BotGUI) : BotGUI :=
  match tape with
  | true :: _ => (set_status "Stopping..." (modify_runtime (set_stop_requested true) g).2).2
  | _ => g
  end.

(** The application after the IF_GOTO at index [i] with target [t] has
    evaluated [expr]: the status line is the action's, and the variables
    and the last match are as the evaluation left them. *)
Definition after_if_goto (P : Providers) (i t : Z) (expr : string) (g : BotGUI)
    : BotGUI :=
  let evaluated := eval P expr (vars (runtime g)) (last_match (runtime g)) in
  mkBotGUI
    (mkBotRuntime (ev_vars evaluated) (templates (runtime g))
       (last_screenshot_bgr (runtime g)) (ev_last_match evaluated)
       (stop_requested (runtime g)))
    (actions g) (tag i +:+ "IF_GOTO -> " +:+ pretty t) (calls g).

(** A handler that never asks for a jump: it returns [None] or raises. *)
Definition never_jumps (m : M (option Z)) : Prop :=
  ∀ g, (m g).1 = Ok None ∨ ∃ e, (m g).1 = Raise e.

(** The frame a method that captures lazily works on: the cached one, or
    the one the screen shows now. *)
Definition current_frame (P : Providers) (g : BotGUI) : Image :=
  match last_screenshot_bgr (runtime g) with
  | Some bgr => bgr
  | None => screenshot P (calls g)
  end.

(** [0.0 <= x <= 1.0]. *)
Definition in_unit_interval (x : float) : bool :=
  PrimFloat.leb 0%float x && PrimFloat.leb x 1%float.

(** The calls of a log that are input injections. *)
Definition injections (log : list Event) : list Event :=
  filter (λ ev, is_injection ev = true) log.

(** A call whose duration or interval, if it is a sleep, a mouse move or
    typing, is not below zero. *)
Definition nonneg_timing (ev : Event) : bool :=
  match ev with
  | EvSleep secs => PrimFloat.leb 0%float secs
  | EvMoveTo _ _ duration => PrimFloat.leb 0%float duration
  | EvTypewrite _ interval => PrimFloat.leb 0%float interval
  | _ => true
  end.

(** A method whose calls all have such timings. *)
Definition timed {A : Type} (m : M A) : Prop :=
  ∀ g, Forall (λ ev, nonneg_timing ev = true) (calls g) →
       Forall (λ ev, nonneg_timing ev = true) (calls (m g).2).

(** What the file gives for one action: a dict with a ["type"], whose
    ["params"] are the action's, or an empty dict if it has none. *)
Definition record_of (v : PyVal) (a : BotAction) : Prop :=
  ∃ d, v = VDict d ∧ d !! "type" = Some (type a) ∧
       params a = default (VDict ∅) (d !! "params").

(** The number of times [c] occurs in a text. *)
Definition occurrences (c : N) (text : list N) : Z :=
  Z.of_nat (length (filter (λ x, x = c) text)).

(** The distinct characters of a text, each at its first occurrence. *)
Fixpoint first_occurrences (text : list N) : list N :=
  match text with
  | [] => []
  | c :: text' => c :: filter (λ x, x ≠ c) (first_occurrences text')
  end.

(** ["\n".join(lines)]. *)
Fixpoint join_lines (lines : list (list N)) : list N :=
  match lines with
  | [] => []
  | [line] => line
  | line :: lines' => (line ++ newline ++ join_lines lines')%list
  end.

(** The sum of the counts of a [dict]. *)
Definition total (d : list (N * Z)) : Z := foldr Z.add 0 d.*2.

(** Decreasing order of [num]. *)
Definition num_ge (a b : CharNum) : Prop := num b ≤ num a.

(** ** What the handlers leave alone *)

(** Run the binds of a method body. *)
Ltac run_m :=
  repeat (unfold mbind, mret, M_bind, M_ret, Res_bind, Res_ret; cbn beta iota).

Lemma keeps_ret {A : Type} (a : A) : keeps (mret a).
Proof. by intros g. Qed.

Lemma keeps_bind {A B : Type} (m : M A) (k : A → M B) :
  keeps m → (∀ a, keeps (k a)) → keeps (m ≫= k).
Proof.
  intros Hm Hk g. unfold mbind, M_bind. specialize (Hm g).
  destruct (m g) as [[a|e] g']; cbn in *; [|done].
  by rewrite Hk.
Qed.

Lemma keeps_lift {A : Type} (r : Res A) : keeps (lift r).
Proof. by intros g. Qed.

Lemma keeps_get_runtime : keeps get_runtime.
Proof. by intros g. Qed.

Lemma keeps_get_calls : keeps get_calls.
Proof. by intros g. Qed.

Lemma keeps_call ev : keeps (call ev).
Proof. by intros g. Qed.

Lemma keeps_set_status text : keeps (set_status text).
Proof. by intros g. Qed.

(** An assignment to a runtime field other than the stop flag. *)
Lemma keeps_modify_runtime h :
  (∀ r, stop_requested (h r) = stop_requested r) → keeps (modify_runtime h).
Proof.
  intros Hh g. unfold loop_view, stop_flag, modify_runtime, get_runtime, put_runtime.
  run_m. cbn. by rewrite Hh.
Qed.

Create HintDb keeps.
#[export] Hint Resolve keeps_ret keeps_lift keeps_get_runtime keeps_get_calls
  keeps_call keeps_set_status : keeps.

(** Walk down a method body: field assignments, binds, branches, then the
    primitives. *)
Ltac keeps_step :=
  match goal with
  | |- keeps (modify_runtime _) => apply keeps_modify_runtime; intros; reflexivity
  | |- keeps (_ ≫= _) => apply keeps_bind; [|intros]
  | |- keeps (if ?b then _ else _) => destruct b
  | |- keeps (match ?x with _ => _ end) => destruct x
  | |- keeps _ => solve [auto with keeps]
  end.
Ltac keeps := repeat keeps_step.

Lemma never_jumps_ret_None : never_jumps (mret None).
Proof. intros g. by left. Qed.

Lemma never_jumps_bind {A : Type} (m : M A) (k : A → M (option Z)) :
  (∀ a, never_jumps (k a)) → never_jumps (m ≫= k).
Proof.
  intros Hk g. unfold mbind, M_bind.
  destruct (m g) as [[a|e] g']; [apply Hk|]. right. by exists e.
Qed.

Ltac never_jumps :=
  repeat (apply never_jumps_bind; intros); apply never_jumps_ret_None.

Section EngineFacts.

Context (B : PyBuiltins) (P : Providers).

Lemma keeps_take_screenshot : keeps (take_screenshot P).
Proof. unfold take_screenshot. keeps. Qed.

Lemma keeps_ensure_screenshot : keeps (ensure_screenshot P).
Proof.
  unfold ensure_screenshot. apply keeps_bind; [apply keeps_get_runtime|].
  intros r. destruct (last_screenshot_bgr r);
    [apply keeps_ret|apply keeps_take_screenshot].
Qed.

Lemma keeps_load_template name path : keeps (load_template P name path).
Proof. unfold load_template. keeps. Qed.

Lemma keeps_find_template name threshold method :
  keeps (find_template P name threshold method).
Proof.
  unfold find_template. apply keeps_bind; [apply keeps_ensure_screenshot|].
  intros src. apply keeps_bind; [apply keeps_get_runtime|]. intros r.
  destruct (templates r !! name) as [tmpl|]; [|apply keeps_ret].
  destruct (match_template P src tmpl method) as [[[min_val max_val] min_loc] max_loc].
  destruct (template_score _ _ _ _ _) as [score loc].
  keeps.
Qed.

Lemma keeps_click_match button clicks interval center offset :
  keeps (click_match button clicks interval center offset).
Proof. unfold click_match. keeps. Qed.

Lemma keeps_check_pixel x y r g b tolerance :
  keeps (check_pixel P x y r g b tolerance).
Proof.
  unfold check_pixel. apply keeps_bind; [apply keeps_ensure_screenshot|].
  intros img. destruct (_ || _); [apply keeps_ret|].
  destruct (pixel img y x) as [[br bg] bb]. apply keeps_ret.
Qed.

Lemma keeps_set_var name value : keeps (set_var name value).
Proof. unfold set_var. keeps. Qed.

Lemma keeps_update_preview rectangles : keeps (update_preview rectangles).
Proof. unfold update_preview. keeps. Qed.

#[local] Hint Resolve keeps_take_screenshot keeps_load_template
  keeps_find_template keeps_click_match keeps_check_pixel keeps_set_var
  keeps_update_preview : keeps.

Lemma keeps_dispatch act index test_mode :
  keeps (dispatch B P act index test_mode).
Proof.
  unfold dispatch.
  repeat match goal with |- keeps (if ?b then _ else _) => destruct b end.
  - unfold exec_WAIT, arg_float. keeps.
  - unfold exec_SCREENSHOT. keeps.
  - unfold exec_LOAD_TEMPLATE, arg_str. keeps.
  - unfold exec_FIND_TEMPLATE, arg_str, arg_float. keeps.
  - unfold exec_CLICK_MATCH, arg_str, arg_int, arg_float, arg_bool. keeps.
  - unfold exec_CLICK_AT, click_at, arg_str, arg_int, arg_float. keeps.
  - unfold exec_MOVE_MOUSE, move_mouse, arg_int, arg_float. keeps.
  - unfold exec_CHECK_PIXEL, arg_str, arg_int. keeps.
  - unfold exec_SET_VAR, arg_str. keeps.
  - unfold exec_IF_GOTO, arg_str, arg_int. keeps.
  - unfold exec_PRESS_KEY, press_key, arg_str. keeps.
  - unfold exec_TYPE_TEXT, type_text, arg_str, arg_float. keeps.
  - keeps.
Qed.

(** [_execute_action] changes neither the script nor the stop flag. *)
Lemma execute_action_loop_view index test_mode g :
  loop_view (_execute_action B P index test_mode g).2 = loop_view g.
Proof.
  unfold _execute_action.
  destruct (_ || _); [done|].
  destruct (actions g !! _) as [act|]; [|done].
  pose proof (keeps_dispatch act index test_mode g) as H.
  destruct (dispatch _ _ _ _ _ _) as [[jumped|e] g']; cbn in *; done.
Qed.

Lemma execute_action_actions index test_mode g :
  actions (_execute_action B P index test_mode g).2 = actions g.
Proof.
  pose proof (execute_action_loop_view index test_mode g) as H.
  unfold loop_view in H. congruence.
Qed.

Lemma execute_action_stop_flag index test_mode g :
  stop_flag (_execute_action B P index test_mode g).2 = stop_flag g.
Proof.
  pose proof (execute_action_loop_view index test_mode g) as H.
  unfold loop_view in H. congruence.
Qed.

Lemma execute_action_len index test_mode g :
  len (_execute_action B P index test_mode g).2 = len g.
Proof. unfold len. by rewrite execute_action_actions. Qed.

(** Only IF_GOTO hands a jump target back. *)
Lemma dispatch_jump_is_if_goto act index test_mode g t :
  (dispatch B P act index test_mode g).1 = Ok (Some t) →
  type act = VStr "IF_GOTO".
Proof.
  unfold dispatch. intros H.
  assert (∀ m : M (option Z), never_jumps m → (m g).1 = Ok (Some t) → False)
    as Hno.
  { intros m Hm Heq. destruct (Hm g) as [H1|[e H1]]; congruence. }
  repeat match type of H with
         | ((if ?b then _ else _) _).1 = _ => destruct b eqn:?
         end;
    try (exfalso; revert H; apply Hno; never_jumps).
  unfold type_is in *. destruct (type act) as [| | | |kind| | |]; try done.
  f_equal. by apply String.eqb_eq.
Qed.

Lemma execute_action_jump_is_if_goto index test_mode g t g' :
  _execute_action B P index test_mode g = (Some t, g') →
  ∃ act, actions g !! Z.to_nat index = Some act ∧ type act = VStr "IF_GOTO".
Proof.
  unfold _execute_action.
  destruct (_ || _); [done|].
  destruct (actions g !! _) as [act|]; [|done].
  intros H. exists act. split; [done|].
  apply (dispatch_jump_is_if_goto act index test_mode g t).
  destruct (dispatch _ _ _ _ _ _) as [[jumped|e] g1]; cbn in *; congruence.
Qed.

(** ** The interpreter loop *)

Lemma stop_script_len g : len (snd (stop_script g)) = len g.
Proof. done. Qed.

Lemma stop_script_stops g : stop_requested (runtime (snd (stop_script g))) = true.
Proof. done. Qed.

Lemma clamp_jump_range n t : 0 < n → 0 ≤ clamp_jump n t < n.
Proof. unfold clamp_jump. lia. Qed.

(** The loop is over when its head finds the counter not below the
    length; a call of [stop_script] heard there changes nothing to that. *)
Lemma runner_while_done tape i g :
  len g ≤ i →
  runner_while B P tape i g =
    mkOutcome DONE i (snd (set_status "Done" (heard tape g))) [].
Proof.
  intros Hi. destruct tape as [|[] tape]; cbn [runner_while heard].
  - destruct (Z.ltb_spec i (len g)); (lia || done).
  - change (len (stop_script g).2) with (len g).
    destruct (Z.ltb_spec i (len g)); (lia || done).
  - destruct (Z.ltb_spec i (len g)); (lia || done).
Qed.

Lemma heard_view tape g :
  actions (heard tape g) = actions g ∧ calls (heard tape g) = calls g ∧
  len (heard tape g) = len g.
Proof. by destruct tape as [|[] tape]. Qed.

(** A test of the stop flag that finds it set ends the run at once. *)
Lemma runner_while_stopped stop_called tape i g :
  i < len g →
  stop_called = true ∨ stop_requested (runtime g) = true →
  runner_while B P (stop_called :: tape) i g =
    mkOutcome STOPPED i
      (snd (set_status "Stopped" (if stop_called then snd (stop_script g) else g))) [].
Proof.
  intros Hi Hstop. cbn [runner_while].
  destruct stop_called.
  - change (len (stop_script g).2) with (len g).
    by destruct (Z.ltb_spec i (len g)); [|lia].
  - destruct (Z.ltb_spec i (len g)); [|lia].
    destruct Hstop as [|Hstop]; [done|].
    unfold should_stop, mbind, M_bind, get_runtime, mret, M_ret. by rewrite Hstop.
Qed.

(** A test that finds the flag clear runs the action at [i] and goes on
    from the next counter. *)
Lemma runner_while_step tape i g :
  i < len g →
  stop_requested (runtime g) = false →
  runner_while B P (false :: tape) i g =
    let jg := _execute_action B P i false g in
    let i' := match jg.1 with
              | Some t => clamp_jump (len g) t
              | None => i + 1
              end in
    let rest := runner_while B P tape i' jg.2 in
    mkOutcome (run_state rest) (pc rest) (gui rest) (i :: fetched rest).
Proof.
  intros Hi Hstop. cbn [runner_while].
  destruct (Z.ltb_spec i (len g)); [|lia].
  unfold should_stop, mbind, M_bind, get_runtime, mret, M_ret. rewrite Hstop.
  pose proof (execute_action_len i false g) as Hlen.
  destruct (_execute_action B P i false g) as [jumped g3]; cbn in *.
  by rewrite Hlen.
Qed.

(** What every run keeps true, from any counter within [0, len]. *)
Lemma runner_while_invariant tape : ∀ i g,
  0 ≤ i ≤ len g →
  let o := runner_while B P tape i g in
  0 ≤ pc o ≤ len g ∧
  (run_state o = DONE → pc o = len g ∧ status_var (gui o) = "Done") ∧
  (run_state o = RUNNING → pc o < len g) ∧
  Forall (λ j, 0 ≤ j < len g) (fetched o) ∧
  actions (gui o) = actions g.
Proof.
  induction tape as [|stop_called tape IH]; intros i g Hi o; subst o.
  - cbn [runner_while]. destruct (Z.ltb_spec i (len g)); cbn.
    + repeat split; (lia || done || by constructor).
    + repeat split; (lia || done || by constructor).
  - destruct (Z.ltb_spec i (len g)) as [Hlt|Hge].
    2:{ rewrite runner_while_done by done.
        destruct stop_called; cbn;
          repeat split; (lia || done || by constructor). }
    destruct stop_called.
    { rewrite runner_while_stopped by auto. cbn.
      repeat split; (lia || done || by constructor). }
    destruct (stop_requested (runtime g)) eqn:Hstop.
    { rewrite runner_while_stopped by auto. cbn.
      repeat split; (lia || done || by constructor). }
    rewrite runner_while_step by done. cbn zeta.
    pose proof (execute_action_len i false g) as Hlen.
    pose proof (execute_action_actions i false g) as Hacts.
    destruct (_execute_action B P i false g) as [jumped g3]; cbn [fst snd] in *.
    set (i' := match jumped with Some t => clamp_jump (len g) t | None => i + 1 end).
    assert (0 ≤ i' ≤ len g3) as Hi'.
    { subst i'. rewrite Hlen. destruct jumped as [t|]; [|lia].
      pose proof (clamp_jump_range (len g) t). lia. }
    destruct (IH i' g3 Hi') as (Hpc & Hdone & Hrun & Hfetch & Hkeep).
    rewrite Hlen in *. cbn.
    repeat split; try (lia || done).
    + by apply Hdone.
    + by apply Hdone.
    + constructor; [lia|done].
    + congruence.
Qed.

(** An IF_GOTO whose condition holds hands its raw target back. *)
Lemma execute_if_goto_taken i g act d t v :
  0 ≤ i < len g →
  actions g !! Z.to_nat i = Some act →
  type act = VStr "IF_GOTO" →
  params act = VDict d →
  py_int B (default (VInt 0) (d !! "index")) = Ok t →
  ev_value (eval P (py_str B (default (VStr "False") (d !! "expr")))
              (vars (runtime g)) (last_match (runtime g))) = Ok v →
  py_bool v = true →
  _execute_action B P i false g =
    (Some t,
     after_if_goto P i t (py_str B (default (VStr "False") (d !! "expr"))) g).
Proof.
  intros Hi Hact Htype Hparams Hint Heval Htrue.
  unfold _execute_action.
  destruct (Z.ltb_spec i 0); [lia|].
  destruct (Z.leb_spec (len g) i); [lia|]. cbn [orb].
  rewrite Hact. unfold dispatch, type_is. rewrite Htype, Hparams. cbn [String.eqb Ascii.eqb Bool.eqb].
  unfold exec_IF_GOTO, arg_str, arg_int, p_get, lift, get_runtime, set_status,
    modify_runtime, put_runtime.
  run_m. rewrite Hint. run_m. cbn [runtime vars last_match].
  by rewrite Heval, Htrue.
Qed.

(** C1. No run ever passes an index outside [0, len) to the action fetch;
    and when the action at the counter is an IF_GOTO whose condition
    evaluates true with raw target [t], the run goes on from the counter
    [max 0 (min (len - 1) t)], which is a valid index whatever [t] is,
    with the application as the IF_GOTO left it (its status line, and
    whatever the evaluation did to the variables and the last match). *)
Theorem if_goto_resumes_at_clamped_target :
  (∀ tape g,
     Forall (λ j, 0 ≤ j < len g) (fetched (_runner_loop B P tape g))) ∧
  (∀ tape i g act d t v,
     0 ≤ i < len g →
     stop_requested (runtime g) = false →
     actions g !! Z.to_nat i = Some act →
     type act = VStr "IF_GOTO" →
     params act = VDict d →
     py_int B (default (VInt 0) (d !! "index")) = Ok t →
     ev_value (eval P (py_str B (default (VStr "False") (d !! "expr")))
                 (vars (runtime g)) (last_match (runtime g))) = Ok v →
     py_bool v = true →
     let next := Z.max 0 (Z.min (len g - 1) t) in
     let rest :=
       runner_while B P tape next
         (after_if_goto P i t (py_str B (default (VStr "False") (d !! "expr"))) g) in
     0 ≤ next < len g ∧
     runner_while B P (false :: tape) i g =
       mkOutcome (run_state rest) (pc rest) (gui rest) (i :: fetched rest)).
Proof.
  split.
  - intros tape g. unfold _runner_loop.
    pose proof (runner_while_invariant tape 0 (snd (set_status "Running" g))) as H.
    cbn zeta in H. change (len (snd (set_status "Running" g))) with (len g) in H.
    apply H. unfold len. lia.
  - intros tape i g act d t v Hi Hstop Hact Htype Hparams Hint Heval Htrue next rest.
    split; [apply clamp_jump_range; lia|].
    rewrite runner_while_step by (lia || done). cbn zeta.
    by rewrite (execute_if_goto_taken i g act d t v).
Qed.

(** C2. In every run the counter stays within [0, len]; a run that ends
    in the done state ends with the counter equal to the length of the
    script and with the status "Done". *)
Theorem done_run_ends_at_script_length tape g :
  let o := _runner_loop B P tape g in
  0 ≤ pc o ≤ len g ∧
  (run_state o = DONE → pc o = len g ∧ status_var (gui o) = "Done").
Proof.
  unfold _runner_loop.
  pose proof (runner_while_invariant tape 0 (snd (set_status "Running" g))) as H.
  cbn zeta in *. change (len (snd (set_status "Running" g))) with (len g) in H.
  destruct H as (Hpc & Hdone & _); [unfold len; lia|]. done.
Qed.

(** A script without IF_GOTO, run with no stop request, is done after as
    many tests as it has actions left, having run each of them once, in
    order. *)
Lemma runner_while_straight n : ∀ i g,
  (∀ act, act ∈ actions g → type act ≠ VStr "IF_GOTO") →
  stop_flag g = false →
  0 ≤ i ≤ len g →
  len g - i ≤ Z.of_nat n →
  let o := runner_while B P (replicate n false) i g in
  run_state o = DONE ∧ pc o = len g ∧ fetched o = seqZ i (len g - i).
Proof.
  induction n as [|n IH]; intros i g Hfree Hstop Hi Hn o; subst o.
  - rewrite runner_while_done by lia. cbn.
    replace (len g - i) with 0 by lia. repeat split; (done || lia).
  - destruct (Z.ltb_spec i (len g)) as [Hlt|Hge].
    2:{ rewrite runner_while_done by lia. cbn.
        replace (len g - i) with 0 by lia. repeat split; (done || lia). }
    cbn [replicate]. rewrite runner_while_step by done. cbn zeta.
    pose proof (execute_action_loop_view i false g) as Hview.
    destruct (_execute_action B P i false g) as [jumped g3] eqn:Hexec.
    cbn [fst snd] in *. unfold loop_view in Hview.
    assert (actions g3 = actions g) as Hacts by congruence.
    assert (stop_flag g3 = stop_flag g) as Hflag by congruence.
    assert (len g3 = len g) as Hlen by (unfold len; by rewrite Hacts).
    destruct jumped as [t|].
    { destruct (execute_action_jump_is_if_goto i false g t g3 Hexec)
        as (act & Hact & Htype).
      exfalso. apply (Hfree act); [|done]. by eapply list_elem_of_lookup_2. }
    destruct (IH (i + 1) g3) as (Hdone & Hpc & Hfetched).
    + by rewrite Hacts.
    + congruence.
    + lia.
    + lia.
    + cbn. rewrite Hlen in *. repeat split; [done..|].
      rewrite Hfetched, (seqZ_cons i (len g - i)) by lia.
      f_equal. f_equal; lia.
Qed.

(** So [run_script] on such a script returns: with no stop request it is
    done once every action has had its test. *)
Lemma run_script_straight n g :
  (∀ act, act ∈ actions g → type act ≠ VStr "IF_GOTO") →
  (length (actions g) ≤ n)%nat →
  let o := run_script B P (replicate n false) g in
  run_state o = DONE ∧ pc o = len g ∧ fetched o = seqZ 0 (len g).
Proof.
  intros Hfree Hn. unfold run_script, _runner_loop.
  set (g0 := (set_status "Running" (clear_stop g).2).2).
  pose proof (runner_while_straight n 0 g0) as H. cbn zeta in H.
  change (len g0) with (len g) in H. rewrite Z.sub_0_r in H.
  apply H; [done|done|unfold len; lia..].
Qed.

(** Nothing that comes after a call of [stop_script] matters to a run. *)
Lemma runner_while_after_stop tape1 tape2 : ∀ i g,
  let o := runner_while B P (tape1 ++ true :: tape2) i g in
  o = runner_while B P (tape1 ++ [true]) i g ∧
  run_state o ≠ RUNNING ∧
  (length (fetched o) ≤ length tape1)%nat.
Proof.
  induction tape1 as [|stop_called tape1 IH]; intros i g o; subst o.
  - cbn [app]. destruct (Z.ltb_spec i (len g)) as [Hlt|Hge].
    + rewrite !runner_while_stopped by auto. cbn. repeat split; (done || lia).
    + rewrite !runner_while_done by done. cbn. repeat split; (done || lia).
  - cbn [app]. destruct (Z.ltb_spec i (len g)) as [Hlt|Hge].
    2:{ rewrite !runner_while_done by done. cbn. repeat split; (done || lia). }
    destruct stop_called.
    { rewrite !runner_while_stopped by auto. cbn. repeat split; (done || lia). }
    destruct (stop_requested (runtime g)) eqn:Hstop.
    { rewrite !runner_while_stopped by auto. cbn. repeat split; (done || lia). }
    rewrite !runner_while_step by done. cbn zeta.
    destruct (_execute_action B P i false g) as [jumped g3]; cbn [fst snd].
    set (i' := match jumped with Some t => clamp_jump (len g) t | None => i + 1 end).
    destruct (IH i' g3) as (Heq & Hrun & Hlen). cbn zeta in *.
    rewrite Heq. cbn. repeat split; [by rewrite <- Heq|].
    rewrite <- Heq. lia.
Qed.

(** C9. A test of the stop flag that finds it set, with an action still
    to run, ends the run in the stopped state without running that action
    or making any call, whatever the rest of the tape; the action that was
    in flight when [stop_script] was called has run to its end; and no run
    dispatches more actions than there were tests before the call. *)
Theorem no_action_after_stop_observed :
  (∀ stop_called tape i g,
     i < len g →
     stop_called = true ∨ stop_requested (runtime g) = true →
     let o := runner_while B P (stop_called :: tape) i g in
     run_state o = STOPPED ∧ status_var (gui o) = "Stopped" ∧ pc o = i ∧
     fetched o = [] ∧ calls (gui o) = calls g ∧
     stop_requested (runtime (gui o)) = true) ∧
  (∀ tape i g,
     0 ≤ i < len g →
     stop_requested (runtime g) = false →
     let jg := _execute_action B P i false g in
     let i' := match jg.1 with
               | Some t => clamp_jump (len g) t
               | None => i + 1
               end in
     i' < len g →
     let o := runner_while B P (false :: true :: tape) i g in
     run_state o = STOPPED ∧ fetched o = [i] ∧ pc o = i' ∧
     gui o = snd (set_status "Stopped" (snd (stop_script jg.2)))) ∧
  (∀ tape1 tape2 g,
     let o := _runner_loop B P (tape1 ++ true :: tape2) g in
     run_state o ≠ RUNNING ∧ (length (fetched o) ≤ length tape1)%nat).
Proof.
  split; [|split].
  - intros stop_called tape i g Hi Hstop o. subst o.
    rewrite runner_while_stopped by done.
    destruct stop_called; [by repeat split|].
    destruct Hstop as [|Hstop]; [done|]. by repeat split.
  - intros tape i g Hi Hstop jg i' Hi' o. subst o.
    rewrite runner_while_step by (lia || done). cbn zeta.
    fold jg. fold i'.
    rewrite runner_while_stopped; [done| |by left].
    subst jg. by rewrite execute_action_len.
  - intros tape1 tape2 g o. subst o. unfold _runner_loop.
    by destruct (runner_while_after_stop tape1 tape2 0 (snd (set_status "Running" g)))
      as (_ & ? & ?).
Qed.

End EngineFacts.

(** ** The runtime methods *)

Section RuntimeFacts.

Context (P : Providers).

(** The lazy capture returns the current frame and leaves the registry and
    the last match alone. *)
Lemma ensure_screenshot_spec g :
  let out := ensure_screenshot P g in
  out.1 = Ok (current_frame P g) ∧
  templates (runtime out.2) = templates (runtime g) ∧
  last_match (runtime out.2) = last_match (runtime g) ∧
  injections (calls out.2) = injections (calls g).
Proof.
  unfold ensure_screenshot, current_frame, take_screenshot, modify_runtime,
    get_runtime, get_calls, put_runtime, call, injections.
  run_m. destruct (last_screenshot_bgr (runtime g)); cbn; [done|].
  repeat split. rewrite filter_app. cbn. by rewrite app_nil_r.
Qed.

(** [find_template] on a name that is not registered: the result is
    [None], and the last match is what it was before the call. *)
Lemma find_template_unregistered name threshold method g :
  templates (runtime g) !! name = None →
  let out := find_template P name threshold method g in
  out.1 = Ok None ∧ last_match (runtime out.2) = last_match (runtime g).
Proof.
  intros Hname. unfold find_template.
  destruct (ensure_screenshot_spec g) as (Hval & Htmpl & Hlast & _).
  run_m. destruct (ensure_screenshot P g) as [r g1]; cbn in *. subst r.
  unfold get_runtime. rewrite Htmpl, Hname. done.
Qed.

(** C4. For a registered template, [find_template] scores the best
    location with [1.0 - min_val] for the two squared-difference methods
    and with [max_val] for the others; it accepts exactly when
    [score >= threshold]. On acceptance the match (name, location, template
    size, score) is stored as the last match and returned; on rejection the
    last match is cleared and [None] is returned. *)
Theorem find_template_accepts_from_threshold name threshold method g tmpl :
  templates (runtime g) !! name = Some tmpl →
  let '(min_val, max_val, min_loc, max_loc) :=
    match_template P (current_frame P g) tmpl method in
  let inverse := (method =? TM_SQDIFF) || (method =? TM_SQDIFF_NORMED) in
  let score := if inverse then PrimFloat.sub 1%float min_val else max_val in
  let loc := if inverse then min_loc else max_loc in
  let m := mkMatch name loc.1 loc.2 (width tmpl) (height tmpl) score in
  let out := find_template P name threshold method g in
  if PrimFloat.leb threshold score
  then out.1 = Ok (Some m) ∧ last_match (runtime out.2) = Some m
  else out.1 = Ok None ∧ last_match (runtime out.2) = None.
Proof.
  intros Hname. unfold find_template.
  destruct (ensure_screenshot_spec g) as (Hval & Htmpl & _).
  run_m. destruct (ensure_screenshot P g) as [r g1]; cbn in *. subst r.
  unfold get_runtime. rewrite Htmpl, Hname.
  destruct (match_template _ _ _ _) as [[[min_val max_val] min_loc] max_loc].
  unfold template_score.
  destruct ((method =? TM_SQDIFF) || (method =? TM_SQDIFF_NORMED)); cbn zeta;
    destruct (PrimFloat.leb threshold _); done.
Qed.

(** C5. On a coordinate inside the frame, [check_pixel] answers whether
    each of the three channels of the pixel is within [tolerance] of the
    target's (a difference equal to the tolerance counts as within); on a
    coordinate outside the frame it answers false. *)
Theorem check_pixel_within_tolerance x y r gr b tolerance g :
  let img := current_frame P g in
  let '(blue, green, red) := pixel img y x in
  let inside := 0 ≤ x < width img ∧ 0 ≤ y < height img in
  let answer := (check_pixel P x y r gr b tolerance g).1 in
  (inside →
     answer = Ok (bool_decide (Z.abs (red - r) ≤ tolerance ∧
                               Z.abs (green - gr) ≤ tolerance ∧
                               Z.abs (blue - b) ≤ tolerance))) ∧
  (¬ inside → answer = Ok false).
Proof.
  unfold check_pixel.
  destruct (ensure_screenshot_spec g) as (Hval & _).
  run_m. destruct (ensure_screenshot P g) as [v g1]; cbn in *. subst v.
  set (img := current_frame P g).
  destruct (pixel img y x) as [[blue green] red] eqn:Hpx.
  split.
  - intros [[Hx0 Hx1] [Hy0 Hy1]].
    destruct (Z.ltb_spec x 0); [lia|].
    destruct (Z.ltb_spec y 0); [lia|].
    destruct (Z.leb_spec (width img) x); [lia|].
    destruct (Z.leb_spec (height img) y); [lia|].
    cbn. f_equal. unfold within.
    destruct (Z.leb_spec (Z.abs (blue - b)) tolerance);
      destruct (Z.leb_spec (Z.abs (green - gr)) tolerance);
      destruct (Z.leb_spec (Z.abs (red - r)) tolerance); cbn;
      symmetry; (apply bool_decide_eq_true_2 || apply bool_decide_eq_false_2); lia.
  - intros Hout.
    destruct (Z.ltb_spec x 0); [done|].
    destruct (Z.ltb_spec y 0); [done|].
    destruct (Z.leb_spec (width img) x); [done|].
    destruct (Z.leb_spec (height img) y); [done|].
    lia.
Qed.

(** C6. Without a last match, [click_match] returns false and leaves the
    application as it was, so it makes no call at all; with a last match it
    makes one call, a click at the match's corner, moved by half the width
    and half the height (rounded down) when [center] is set, and by the
    offset, and returns true. *)
Theorem click_match_clicks_last_match button clicks interval center offset g :
  let out := click_match button clicks interval center offset g in
  (last_match (runtime g) = None → out.1 = Ok false ∧ out.2 = g) ∧
  (∀ m, last_match (runtime g) = Some m →
     let x := m_x m + (if center then m_w m `div` 2 else 0) + offset.1 in
     let y := m_y m + (if center then m_h m `div` 2 else 0) + offset.2 in
     out.1 = Ok true ∧
     calls out.2 = (calls g ++ [EvClick x y clicks button interval])%list ∧
     runtime out.2 = runtime g).
Proof.
  unfold click_match, get_runtime, call. run_m. split.
  - intros ->. by destruct g.
  - by intros m ->.
Qed.

(** [max(0.0, x)] is never below zero. *)
Lemma max0_nonneg x : PrimFloat.leb 0%float (max0 x) = true.
Proof.
  unfold max0. destruct (PrimFloat.ltb 0 x) eqn:Hlt; [|done].
  rewrite ltb_spec in Hlt. rewrite leb_spec.
  unfold SFltb in Hlt. unfold SFleb.
  by destruct (SFcompare _ _) as [[]|].
Qed.

(** [move_mouse] and [type_text] forward a duration or an interval that is
    not below zero. *)
Lemma move_mouse_duration_nonneg x y duration g :
  ∃ d, calls (move_mouse x y duration g).2 = (calls g ++ [EvMoveTo x y d])%list ∧
       PrimFloat.leb 0%float d = true.
Proof. exists (max0 duration). split; [done|apply max0_nonneg]. Qed.

Lemma type_text_interval_nonneg text interval g :
  ∃ d, calls (type_text text interval g).2 = (calls g ++ [EvTypewrite text d])%list ∧
       PrimFloat.leb 0%float d = true.
Proof. exists (max0 interval). split; [done|apply max0_nonneg]. Qed.

(** [click_at] forwards the interval as it is given. *)
Lemma click_at_forwards_interval x y button clicks interval g :
  calls (click_at x y button clicks interval g).2 =
    (calls g ++ [EvClick x y clicks button interval])%list.
Proof. done. Qed.

End RuntimeFacts.

(** ** Further properties of the handlers and the loop *)

Section HandlerFacts.

Context (B : PyBuiltins) (P : Providers).

(** What [_execute_action] does at a valid index, in terms of the
    handler. *)
Lemma execute_action_at index test_mode g act :
  0 ≤ index < len g →
  actions g !! Z.to_nat index = Some act →
  _execute_action B P index test_mode g =
    match dispatch B P act index test_mode g with
    | (Ok jumped, g') => (jumped, g')
    | (Raise e, g') =>
        (None, (call (EvShowError "Action Error"
                        ("Error at action #" +:+ pretty index +:+ " ("
                         +:+ py_str B (type act) +:+ "):" +:+ nl) e) g').2)
    end.
Proof.
  intros Hi Hact. unfold _execute_action.
  destruct (Z.ltb_spec index 0); [lia|].
  destruct (Z.leb_spec (len g) index); [lia|].
  cbn [orb]. by rewrite Hact.
Qed.

(** X1. [_execute_action] hands a jump target back only for an IF_GOTO
    action at a valid index whose condition evaluated to a true value, and
    the target is then the integer of its ["index"] parameter. *)
Theorem jump_only_from_true_if_goto index test_mode g t g' :
  _execute_action B P index test_mode g = (Some t, g') →
  ∃ act d v,
    0 ≤ index < len g ∧
    actions g !! Z.to_nat index = Some act ∧
    type act = VStr "IF_GOTO" ∧
    params act = VDict d ∧
    py_int B (default (VInt 0) (d !! "index")) = Ok t ∧
    ev_value (eval P (py_str B (default (VStr "False") (d !! "expr")))
                (vars (runtime g)) (last_match (runtime g))) = Ok v ∧
    py_bool v = true.
Proof.
  intros Hexec.
  destruct (execute_action_jump_is_if_goto B P index test_mode g t g' Hexec)
    as (act & Hact & Htype).
  assert (0 ≤ index < len g) as Hi.
  { unfold _execute_action in Hexec.
    destruct (Z.ltb_spec index 0); [done|].
    destruct (Z.leb_spec (len g) index); [done|]. lia. }
  rewrite (execute_action_at index test_mode g act Hi Hact) in Hexec.
  unfold dispatch, type_is in Hexec. rewrite Htype in Hexec.
  cbn [String.eqb Ascii.eqb Bool.eqb] in Hexec.
  unfold exec_IF_GOTO, arg_str, arg_int, p_get, lift, get_runtime, set_status,
    modify_runtime, put_runtime in Hexec.
  destruct (params act) as [| | | | | | |d] eqn:Hparams;
    try (revert Hexec; run_m; discriminate).
  revert Hexec. run_m.
  destruct (py_int B (default (VInt 0) (d !! "index"))) as [t'|e] eqn:Hint;
    run_m; [|discriminate].
  cbn [runtime vars last_match].
  destruct (ev_value (eval P _ _ _)) as [v|e] eqn:Heval; cbn; [|discriminate].
  destruct (py_bool v) eqn:Hv; [|discriminate].
  intros [= -> <-]. by exists act, d, v.
Qed.

(** X2. A script without IF_GOTO, started with [run_script] and not
    stopped, is done after as many tests of the stop flag as it has
    actions: each action has been run once, in script order, and the
    counter is the length of the script. *)
Theorem straight_script_runs_to_done n g :
  (∀ act, act ∈ actions g → type act ≠ VStr "IF_GOTO") →
  (length (actions g) ≤ n)%nat →
  let o := run_script B P (replicate n false) g in
  run_state o = DONE ∧ pc o = len g ∧ fetched o = seqZ 0 (len g) ∧
  status_var (gui o) = "Done".
Proof.
  intros Hfree Hn o.
  destruct (run_script_straight B P n g Hfree Hn) as (Hdone & Hpc & Hfetched).
  repeat split; [done..|].
  subst o. unfold run_script, _runner_loop in *.
  set (g0 := (set_status "Running" (clear_stop g).2).2) in *.
  destruct (runner_while_invariant B P (replicate n false) 0 g0)
    as (_ & Hstatus & _); [unfold len; lia|].
  by apply Hstatus.
Qed.

(** The type of an action that none of the handlers takes. *)
Lemma unsupported_type_is act :
  (∀ kind, kind ∈ SUPPORTED_ACTIONS → type act ≠ VStr kind) →
  ∀ kind, kind ∈ SUPPORTED_ACTIONS → type_is act kind = false.
Proof.
  intros Hnot kind Hkind. unfold type_is.
  destruct (type act) as [| | | |t| | |] eqn:Ht; try done.
  apply String.eqb_neq. intros ->. by apply (Hnot kind).
Qed.

(** X3. An action whose type is none of the supported kinds (the
    comparison is exact, so ["wait"] is not ["WAIT"]) does nothing but show
    the warning "Unknown Action": no jump, and the runtime, the script and
    the status stay as they were. *)
Theorem unknown_action_only_warns index test_mode g act :
  0 ≤ index < len g →
  actions g !! Z.to_nat index = Some act →
  (∀ kind, kind ∈ SUPPORTED_ACTIONS → type act ≠ VStr kind) →
  _execute_action B P index test_mode g =
    (None,
     mkBotGUI (runtime g) (actions g) (status_var g)
       (calls g ++ [EvShowWarning "Unknown Action"
                      ("Unknown action type: " +:+ py_str B (type act))])).
Proof.
  intros Hi Hact Hnot.
  rewrite (execute_action_at index test_mode g act Hi Hact).
  pose proof (unsupported_type_is act Hnot) as Hno.
  unfold dispatch.
  rewrite !Hno by (unfold SUPPORTED_ACTIONS; repeat constructor).
  done.
Qed.

(** X4. An action of a supported kind other than SCREENSHOT whose params
    are not a mapping (a JSON [null], list, number or string) does nothing
    but show one error, for the [AttributeError] of [p.get]: no jump, no
    other call, and the runtime and the status stay as they were. *)
Theorem params_not_a_mapping_only_reports index test_mode g act kind :
  0 ≤ index < len g →
  actions g !! Z.to_nat index = Some act →
  type act = VStr kind →
  kind ∈ SUPPORTED_ACTIONS →
  kind ≠ "SCREENSHOT" →
  (∀ d, params act ≠ VDict d) →
  _execute_action B P index test_mode g =
    (None,
     mkBotGUI (runtime g) (actions g) (status_var g)
       (calls g ++ [EvShowError "Action Error"
                      ("Error at action #" +:+ pretty index +:+ " (" +:+ kind
                       +:+ "):" +:+ nl) AttributeError])).
Proof.
  intros Hi Hact Htype Hkind Hshot Hparams.
  rewrite (execute_action_at index test_mode g act Hi Hact).
  assert (∀ key dflt, p_get (params act) key dflt = Raise AttributeError) as Hget.
  { intros key dflt. destruct (params act) as [| | | | | | |d] eqn:Hp; try done.
    by destruct (Hparams d). }
  unfold dispatch, type_is. rewrite Htype. cbn [py_str].
  unfold SUPPORTED_ACTIONS in Hkind.
  repeat (apply elem_of_cons in Hkind as [->|Hkind]);
    try (by apply elem_of_nil in Hkind); try done;
    cbn [String.eqb Ascii.eqb Bool.eqb];
    unfold exec_WAIT, exec_LOAD_TEMPLATE, exec_FIND_TEMPLATE, exec_CLICK_MATCH,
      exec_CLICK_AT, exec_MOVE_MOUSE, exec_CHECK_PIXEL, exec_SET_VAR,
      exec_IF_GOTO, exec_PRESS_KEY, exec_TYPE_TEXT,
      arg_str, arg_int, arg_float, arg_bool, lift;
    run_m; rewrite Hget; done.
Qed.

(** *** Timings *)

Lemma timed_ret {A : Type} (a : A) : timed (mret a).
Proof. by intros g. Qed.

Lemma timed_bind {A A' : Type} (m : M A) (k : A → M A') :
  timed m → (∀ a, timed (k a)) → timed (m ≫= k).
Proof.
  intros Hm Hk g Hg. unfold mbind, M_bind. specialize (Hm g Hg).
  destruct (m g) as [[a|e] g']; cbn in *; [|done].
  by apply Hk.
Qed.

Lemma timed_lift {A : Type} (r : Res A) : timed (lift r).
Proof. by intros g. Qed.

Lemma timed_get_runtime : timed get_runtime.
Proof. by intros g. Qed.

Lemma timed_get_calls : timed get_calls.
Proof. by intros g. Qed.

Lemma timed_set_status text : timed (set_status text).
Proof. by intros g. Qed.

Lemma timed_modify_runtime h : timed (modify_runtime h).
Proof. by intros g. Qed.

Lemma timed_call ev : nonneg_timing ev = true → timed (call ev).
Proof.
  intros Hev g Hg. cbn. apply Forall_app. split; [done|].
  by constructor.
Qed.

Ltac timed_step :=
  match goal with
  | |- timed (call _) =>
      apply timed_call; first [reflexivity | apply max0_nonneg]
  | |- timed (modify_runtime _) => apply timed_modify_runtime
  | |- timed (_ ≫= _) => apply timed_bind; [|intros]
  | |- timed (if ?b then _ else _) => destruct b
  | |- timed (match ?x with _ => _ end) => destruct x
  | |- timed (mret _) => apply timed_ret
  | |- timed (lift _) => apply timed_lift
  | |- timed get_runtime => apply timed_get_runtime
  | |- timed get_calls => apply timed_get_calls
  | |- timed (set_status _) => apply timed_set_status
  end.
Ltac timed := repeat timed_step.

Lemma timed_find_template name threshold method :
  timed (find_template P name threshold method).
Proof.
  unfold find_template, ensure_screenshot, take_screenshot.
  apply timed_bind; [timed|]. intros src.
  apply timed_bind; [timed|]. intros r.
  destruct (templates r !! name) as [tmpl|]; [|timed].
  destruct (match_template P src tmpl method) as [[[min_val max_val] min_loc] max_loc].
  destruct (template_score _ _ _ _ _) as [score loc].
  timed.
Qed.

Lemma timed_check_pixel x y r g b tolerance :
  timed (check_pixel P x y r g b tolerance).
Proof.
  unfold check_pixel, ensure_screenshot, take_screenshot.
  apply timed_bind; [timed|]. intros img.
  destruct (_ || _); [timed|].
  destruct (pixel img y x) as [[br bg] bb]. timed.
Qed.

Lemma timed_dispatch act index test_mode :
  timed (dispatch B P act index test_mode).
Proof.
  unfold dispatch.
  repeat match goal with |- timed (if ?b then _ else _) => destruct b end.
  - unfold exec_WAIT, arg_float. timed.
  - unfold exec_SCREENSHOT, take_screenshot, update_preview. timed.
  - unfold exec_LOAD_TEMPLATE, load_template, arg_str. timed.
  - unfold exec_FIND_TEMPLATE, arg_str, arg_float.
    do 3 (apply timed_bind; [timed|intros]).
    apply timed_bind; [apply timed_find_template|intros].
    unfold set_var, update_preview. timed.
  - unfold exec_CLICK_MATCH, click_match, arg_str, arg_int, arg_float, arg_bool.
    timed.
  - unfold exec_CLICK_AT, click_at, arg_str, arg_int, arg_float. timed.
  - unfold exec_MOVE_MOUSE, move_mouse, arg_int, arg_float. timed.
  - unfold exec_CHECK_PIXEL, arg_str, arg_int.
    do 8 (apply timed_bind; [timed|intros]).
    apply timed_bind; [apply timed_check_pixel|intros].
    unfold set_var, update_preview. timed.
  - unfold exec_SET_VAR, set_var, update_preview, arg_str. timed.
  - unfold exec_IF_GOTO, arg_str, arg_int. timed.
  - unfold exec_PRESS_KEY, press_key, arg_str. timed.
  - unfold exec_TYPE_TEXT, type_text, arg_str, arg_float. timed.
  - timed.
Qed.

Lemma timed_execute_action index test_mode g :
  Forall (λ ev, nonneg_timing ev = true) (calls g) →
  Forall (λ ev, nonneg_timing ev = true)
    (calls (_execute_action B P index test_mode g).2).
Proof.
  intros Hg. unfold _execute_action.
  destruct (_ || _); [done|].
  destruct (actions g !! _) as [act|]; [|done].
  pose proof (timed_dispatch act index test_mode g Hg) as H.
  destruct (dispatch _ _ _ _ _ _) as [[jumped|e] g']; cbn in *; [done|].
  apply Forall_app. split; [done|]. by constructor.
Qed.

Lemma timed_runner_while tape : ∀ i g,
  Forall (λ ev, nonneg_timing ev = true) (calls g) →
  Forall (λ ev, nonneg_timing ev = true) (calls (gui (runner_while B P tape i g))).
Proof.
  induction tape as [|stop_called tape IH]; intros i g Hg.
  - cbn [runner_while]. by destruct (i <? len g).
  - destruct (Z.ltb_spec i (len g)) as [Hlt|Hge].
    2:{ rewrite runner_while_done by done. by destruct stop_called. }
    destruct stop_called.
    { by rewrite runner_while_stopped by auto. }
    destruct (stop_requested (runtime g)) eqn:Hstop.
    { by rewrite runner_while_stopped by auto. }
    rewrite runner_while_step by done. cbn.
    apply IH. by apply timed_execute_action.
Qed.

(** X5. Whatever the script and its parameters, every sleep, mouse move
    and typing call a run makes has a duration or interval that is not
    below zero (and is not NaN): a log that is so before [run_script] is so
    at every point of the run. *)
Theorem run_never_passes_negative_timing tape g :
  Forall (λ ev, nonneg_timing ev = true) (calls g) →
  Forall (λ ev, nonneg_timing ev = true)
    (calls (gui (run_script B P tape g))).
Proof.
  intros Hg. unfold run_script, _runner_loop.
  by apply timed_runner_while.
Qed.

(** *** The capture cache and the variable store *)

(** X6. [find_template] and [check_pixel] capture the screen only when no
    frame is cached: with a cached frame [find_template] makes no call and
    keeps the frame, and [check_pixel] changes nothing at all; without one,
    each takes exactly one screenshot, which becomes the cached frame. *)
Theorem capture_only_when_cache_empty name threshold method x y r gr b tolerance g :
  let found := find_template P name threshold method g in
  let checked := check_pixel P x y r gr b tolerance g in
  (∀ img, last_screenshot_bgr (runtime g) = Some img →
     calls found.2 = calls g ∧
     last_screenshot_bgr (runtime found.2) = Some img ∧
     checked.2 = g) ∧
  (last_screenshot_bgr (runtime g) = None →
     calls found.2 = (calls g ++ [EvScreenshot])%list ∧
     last_screenshot_bgr (runtime found.2) = Some (screenshot P (calls g)) ∧
     calls checked.2 = (calls g ++ [EvScreenshot])%list ∧
     last_screenshot_bgr (runtime checked.2) = Some (screenshot P (calls g))).
Proof.
  unfold find_template, check_pixel, ensure_screenshot, take_screenshot,
    modify_runtime, get_runtime, get_calls, put_runtime, call.
  run_m. split.
  - intros img Hcache. rewrite Hcache. cbn.
    destruct ((x <? 0) || (y <? 0) || (width img <=? x) || (height img <=? y));
      destruct (pixel img y x) as [[br bg] bb];
      (destruct (templates (runtime g) !! name) as [tmpl|]; [|done]);
      destruct (match_template _ _ _ _) as [[[min_val max_val] min_loc] max_loc];
      destruct (template_score _ _ _ _ _) as [score loc];
      by destruct (PrimFloat.leb threshold score).
  - intros Hcache. rewrite Hcache. cbn.
    set (frame := screenshot P (calls g)).
    destruct ((x <? 0) || (y <? 0) || (width frame <=? x) || (height frame <=? y));
      destruct (pixel frame y x) as [[br bg] bb];
      (destruct (templates (runtime g) !! name) as [tmpl|]; [|done]);
      destruct (match_template _ _ _ _) as [[[min_val max_val] min_loc] max_loc];
      destruct (template_score _ _ _ _ _) as [score loc];
      by destruct (PrimFloat.leb threshold score).
Qed.

(** X7. [find_template] is idempotent: a second call with the same
    arguments, right after the first, returns the same result and leaves
    the application exactly as the first call left it (it works on the
    frame the first call cached, without a new capture). *)
Theorem find_template_twice name threshold method g :
  let first := find_template P name threshold method g in
  find_template P name threshold method first.2 = first.
Proof.
  unfold find_template, ensure_screenshot, take_screenshot,
    modify_runtime, get_runtime, get_calls, put_runtime, call.
  run_m.
  destruct (last_screenshot_bgr (runtime g)) as [img|] eqn:Hcache; cbn.
  - destruct (templates (runtime g) !! name) as [tmpl|] eqn:Htmpl; cbn.
    2:{ by rewrite ?Hcache, ?Htmpl. }
    destruct (match_template P img tmpl method)
      as [[[min_val max_val] min_loc] max_loc] eqn:Hmatch.
    destruct (template_score _ _ _ _ _) as [score loc] eqn:Hscore.
    destruct (PrimFloat.leb threshold score) eqn:Hle; cbn;
      rewrite ?Hcache; cbn; rewrite ?Htmpl, ?Hmatch, ?Hscore, ?Hle; done.
  - set (frame := screenshot P (calls g)).
    destruct (templates (runtime g) !! name) as [tmpl|] eqn:Htmpl; cbn.
    2:{ by rewrite ?Htmpl. }
    destruct (match_template P frame tmpl method)
      as [[[min_val max_val] min_loc] max_loc] eqn:Hmatch.
    destruct (template_score _ _ _ _ _) as [score loc] eqn:Hscore.
    destruct (PrimFloat.leb threshold score) eqn:Hle; cbn;
      rewrite ?Htmpl, ?Hmatch, ?Hscore, ?Hle; done.
Qed.

(** X8. The variable store is a map: [get_var] right after [set_var] of
    the same name returns the value set, whatever the default; every other
    name reads as before; and [set_var] changes nothing but the store. *)
Theorem get_var_after_set_var name value other dflt g :
  let g' := (set_var name value g).2 in
  (get_var name dflt g').1 = Ok value ∧
  (other ≠ name → (get_var other dflt g').1 = (get_var other dflt g).1) ∧
  g' = mkBotGUI
         (mkBotRuntime (<[name := value]> (vars (runtime g)))
            (templates (runtime g)) (last_screenshot_bgr (runtime g))
            (last_match (runtime g)) (stop_requested (runtime g)))
         (actions g) (status_var g) (calls g).
Proof.
  unfold set_var, get_var, modify_runtime, get_runtime, put_runtime.
  run_m. cbn. split; [|split].
  - by rewrite lookup_insert_eq.
  - intros Hne. by rewrite lookup_insert_ne.
  - done.
Qed.

(** X9. An IF_GOTO whose condition evaluates to a false value, or whose
    evaluation raises, is not an error: no jump, nothing is shown and no
    call is made; the status line is the action's, and the variables and
    the last match are as the evaluation left them, so the application
    differs by its status line alone when the evaluation wrote to neither;
    the run goes on with the next action. *)
Theorem if_goto_not_taken_falls_through tape i g act d t :
  0 ≤ i < len g →
  stop_requested (runtime g) = false →
  actions g !! Z.to_nat i = Some act →
  type act = VStr "IF_GOTO" →
  params act = VDict d →
  py_int B (default (VInt 0) (d !! "index")) = Ok t →
  let expr := py_str B (default (VStr "False") (d !! "expr")) in
  let evaluated := eval P expr (vars (runtime g)) (last_match (runtime g)) in
  (∀ v, ev_value evaluated = Ok v → py_bool v = false) →
  let g' := after_if_goto P i t expr g in
  let rest := runner_while B P tape (i + 1) g' in
  _execute_action B P i false g = (None, g') ∧
  calls g' = calls g ∧
  (ev_vars evaluated = vars (runtime g) →
   ev_last_match evaluated = last_match (runtime g) →
   g' = (set_status (tag i +:+ "IF_GOTO -> " +:+ pretty t) g).2) ∧
  runner_while B P (false :: tape) i g =
    mkOutcome (run_state rest) (pc rest) (gui rest) (i :: fetched rest).
Proof.
  intros Hi Hstop Hact Htype Hparams Hint expr evaluated Heval g' rest.
  assert (_execute_action B P i false g = (None, g')) as Hexec.
  { rewrite (execute_action_at i false g act Hi Hact).
    unfold dispatch, type_is. rewrite Htype, Hparams.
    cbn [String.eqb Ascii.eqb Bool.eqb].
    unfold exec_IF_GOTO, arg_str, arg_int, p_get, lift, get_runtime, set_status,
      modify_runtime, put_runtime.
    run_m. rewrite Hint. run_m. cbn [runtime vars last_match].
    fold expr. fold evaluated.
    destruct (ev_value evaluated) as [v|e] eqn:Hvalue; [|done].
    by rewrite (Heval v eq_refl). }
  split; [done|]. split; [done|]. split.
  - intros Hvars Hlast. subst g'. unfold after_if_goto, set_status.
    fold evaluated. cbn [snd]. rewrite Hvars, Hlast. by destruct (runtime g).
  - rewrite runner_while_step by (lia || done). cbn zeta.
    by rewrite Hexec.
Qed.

(** *** Handlers that record what they found *)

Lemma find_template_returns name threshold method g :
  ∃ result, (find_template P name threshold method g).1 = Ok result.
Proof.
  unfold find_template, ensure_screenshot, take_screenshot,
    modify_runtime, get_runtime, get_calls, put_runtime, call.
  run_m.
  destruct (last_screenshot_bgr (runtime g)) as [img|]; cbn;
    (destruct (templates (runtime g) !! name) as [tmpl|]; [|by eexists]);
    destruct (match_template _ _ _ _) as [[[min_val max_val] min_loc] max_loc];
    destruct (template_score _ _ _ _ _) as [score loc];
    destruct (PrimFloat.leb threshold score); by eexists.
Qed.

Lemma check_pixel_returns x y r gr b tolerance g :
  ∃ ok, (check_pixel P x y r gr b tolerance g).1 = Ok ok.
Proof.
  unfold check_pixel, ensure_screenshot, take_screenshot,
    modify_runtime, get_runtime, get_calls, put_runtime, call.
  run_m.
  destruct (last_screenshot_bgr (runtime g)) as [img|]; cbn;
    destruct (_ || _ || _ || _); try (by eexists);
    destruct (pixel _ y x) as [[br bg] bb]; by eexists.
Qed.

(** X10. A FIND_TEMPLATE action with a usable threshold never fails and
    never jumps, and the three variables it writes mirror what
    [find_template] returned: the score, name and position of the match,
    or [None] for each when nothing was found. *)
Theorem find_template_action_records_result index test_mode g act d threshold :
  0 ≤ index < len g →
  actions g !! Z.to_nat index = Some act →
  type act = VStr "FIND_TEMPLATE" →
  params act = VDict d →
  py_float B (default (VFloat 0.85) (d !! "threshold")) = Ok threshold →
  let name := py_str B (default (VStr "template") (d !! "name")) in
  let status := tag index +:+ "FIND_TEMPLATE " +:+ name +:+ " thr="
                +:+ str_of_float B threshold in
  let found := find_template P name threshold TM_CCOEFF_NORMED
                 (set_status status g).2 in
  let after := _execute_action B P index test_mode g in
  ∃ result,
    found.1 = Ok result ∧
    after.1 = None ∧
    last_match (runtime after.2) = last_match (runtime found.2) ∧
    vars (runtime after.2) !! "last_match_score" =
      Some (from_option (λ m, VFloat (m_score m)) VNone result) ∧
    vars (runtime after.2) !! "last_match_name" =
      Some (from_option (λ m, VStr (m_name m)) VNone result) ∧
    vars (runtime after.2) !! "last_match_xy" =
      Some (from_option (λ m, VTuple [VInt (m_x m); VInt (m_y m)]) VNone result) ∧
    calls after.2 =
      (calls found.2 ++
       [EvUpdatePreview
          (from_option (λ m, [(m_x m, m_y m, m_w m, m_h m)]) [] result)])%list.
Proof.
  intros Hi Hact Htype Hparams Hthr name status found after.
  destruct (find_template_returns name threshold TM_CCOEFF_NORMED
              (set_status status g).2) as [result Hresult].
  exists result. split; [done|].
  subst after. rewrite (execute_action_at index test_mode g act Hi Hact).
  unfold dispatch, type_is. rewrite Htype, Hparams.
  cbn [String.eqb Ascii.eqb Bool.eqb].
  unfold exec_FIND_TEMPLATE, arg_str, arg_float, p_get, lift.
  run_m. rewrite Hthr. run_m. fold name. fold status.
  change (set_status status g) with (Ok tt, (set_status status g).2).
  cbn beta iota. fold found. fold found in Hresult.
  clearbody found. destruct found as [r g1]. cbn in Hresult. subst r.
  unfold set_var, update_preview, modify_runtime, get_runtime, put_runtime, call.
  destruct result as [m|]; run_m; cbn;
    rewrite ?lookup_insert_eq, ?lookup_insert_ne by done;
    rewrite ?lookup_insert_eq, ?lookup_insert_ne by done;
    rewrite ?lookup_insert_eq; done.
Qed.

(** X11. A CHECK_PIXEL action whose six numbers are usable never fails
    and never jumps; it stores the answer of [check_pixel], as a boolean,
    in the variable named by its ["set_var"] parameter (["pixel_ok"] when
    absent), and leaves every other variable as it was. *)
Theorem check_pixel_action_stores_answer index test_mode g act d x y r0 g0 b0 tol :
  0 ≤ index < len g →
  actions g !! Z.to_nat index = Some act →
  type act = VStr "CHECK_PIXEL" →
  params act = VDict d →
  py_int B (default (VInt 0) (d !! "x")) = Ok x →
  py_int B (default (VInt 0) (d !! "y")) = Ok y →
  py_int B (default (VInt 255) (d !! "r")) = Ok r0 →
  py_int B (default (VInt 255) (d !! "g")) = Ok g0 →
  py_int B (default (VInt 255) (d !! "b")) = Ok b0 →
  py_int B (default (VInt 10) (d !! "tolerance")) = Ok tol →
  let varname := py_str B (default (VStr "pixel_ok") (d !! "set_var")) in
  let status := tag index +:+ "CHECK_PIXEL " +:+ pretty x +:+ "," +:+ pretty y in
  let checked := check_pixel P x y r0 g0 b0 tol (set_status status g).2 in
  let after := _execute_action B P index test_mode g in
  ∃ ok,
    checked.1 = Ok ok ∧
    after.1 = None ∧
    vars (runtime after.2) !! varname = Some (VBool ok) ∧
    (∀ other, other ≠ varname →
       vars (runtime after.2) !! other = vars (runtime g) !! other).
Proof.
  intros Hi Hact Htype Hparams Hx Hy Hr Hg Hb Htol varname status checked after.
  destruct (check_pixel_returns x y r0 g0 b0 tol (set_status status g).2)
    as [ok Hok].
  exists ok. split; [done|].
  subst after. rewrite (execute_action_at index test_mode g act Hi Hact).
  unfold dispatch, type_is. rewrite Htype, Hparams.
  cbn [String.eqb Ascii.eqb Bool.eqb].
  unfold exec_CHECK_PIXEL, arg_str, arg_int, p_get, lift.
  run_m. rewrite Hx. run_m. rewrite Hy. run_m. rewrite Hr. run_m.
  rewrite Hg. run_m. rewrite Hb. run_m. rewrite Htol. run_m.
  fold varname. fold status.
  change (set_status status g) with (Ok tt, (set_status status g).2).
  cbn beta iota. fold checked. fold checked in Hok.
  assert (vars (runtime checked.2) = vars (runtime g)) as Hvars.
  { subst checked.
    unfold check_pixel, ensure_screenshot, take_screenshot,
      modify_runtime, get_runtime, get_calls, put_runtime, call.
    run_m.
    destruct (last_screenshot_bgr (runtime (set_status status g).2)) as [img|];
      cbn; destruct (_ || _ || _ || _); try done;
      by destruct (pixel _ y x) as [[br bg] bb]. }
  clearbody checked. destruct checked as [r g1]. cbn in Hok, Hvars. subst r.
  unfold set_var, update_preview, modify_runtime, get_runtime, put_runtime, call.
  run_m. cbn. repeat split.
  - by rewrite lookup_insert_eq.
  - intros other Hother. by rewrite lookup_insert_ne, Hvars.
Qed.

(** *** Test mode, the script and the stop flag *)

(** LOAD_TEMPLATE in test mode and in run mode: with a file that can be
    read, test mode adds the line of the template to the list; otherwise
    the two do the same. *)
Lemma load_template_action_in_test_mode d index g :
  let name := py_str B (default (VStr "template") (d !! "name")) in
  let path := py_str B (default (VStr "") (d !! "path")) in
  let t := exec_LOAD_TEMPLATE B P (VDict d) index true g in
  let r := exec_LOAD_TEMPLATE B P (VDict d) index false g in
  match imread P path with
  | Some im =>
      t.1 = Ok None ∧ r.1 = Ok None ∧ calls r.2 = calls g ∧
      t.2 = mkBotGUI (runtime r.2) (actions r.2) (status_var r.2)
              (calls g ++ [EvTemplatesListInsert (name +:+ " -> " +:+ path)])
  | None => t = r
  end.
Proof.
  unfold exec_LOAD_TEMPLATE, arg_str, p_get, lift, load_template, set_status, call,
    modify_runtime, get_runtime, put_runtime.
  run_m.
  by destruct (imread P (py_str B (default (VStr "") (d !! "path")))) as [im|].
Qed.

Lemma load_template_action_without_mapping p index g :
  (∀ d, p ≠ VDict d) →
  exec_LOAD_TEMPLATE B P p index true g = exec_LOAD_TEMPLATE B P p index false g.
Proof.
  intros Hp. unfold exec_LOAD_TEMPLATE, arg_str, p_get, lift. run_m.
  destruct p as [| | | | | | |d]; try done. by destruct (Hp d).
Qed.

Lemma type_is_true act kind : type_is act kind = true → type act = VStr kind.
Proof.
  unfold type_is. destruct (type act) as [| | | |s| | |]; try done.
  by intros ->%String.eqb_eq.
Qed.

(** X21. Testing one action does what running it does: [_execute_action]
    in test mode returns the same jump target and leaves the same runtime,
    script and status as in run mode. A LOAD_TEMPLATE whose file can be
    read makes no call in run mode and one call in test mode, which adds
    the line [name -> path] to the templates list; in every other case
    test mode and run mode leave the same application, call for call. *)
Theorem test_mode_runs_the_same_action index g :
  let t := _execute_action B P index true g in
  let r := _execute_action B P index false g in
  (t.1 = r.1 ∧ runtime t.2 = runtime r.2 ∧ actions t.2 = actions r.2 ∧
   status_var t.2 = status_var r.2) ∧
  (∀ act d im,
     0 ≤ index < len g →
     actions g !! Z.to_nat index = Some act →
     type act = VStr "LOAD_TEMPLATE" →
     params act = VDict d →
     let name := py_str B (default (VStr "template") (d !! "name")) in
     let path := py_str B (default (VStr "") (d !! "path")) in
     imread P path = Some im →
     calls r.2 = calls g ∧
     calls t.2 = (calls g ++ [EvTemplatesListInsert (name +:+ " -> " +:+ path)])%list) ∧
  ((∀ act d,
      0 ≤ index < len g →
      actions g !! Z.to_nat index = Some act →
      type act = VStr "LOAD_TEMPLATE" →
      params act = VDict d →
      imread P (py_str B (default (VStr "") (d !! "path"))) = None) →
   t = r).
Proof.
  intros t r. subst t r. split; [|split].
  - unfold _execute_action.
    destruct (_ || _); [done|].
    destruct (actions g !! _) as [act|]; [|done].
    unfold dispatch.
    destruct (type_is act "WAIT"); [done|].
    destruct (type_is act "SCREENSHOT"); [done|].
    destruct (type_is act "LOAD_TEMPLATE"); [|done].
    destruct (params act) as [| | | | | | |d] eqn:Hparams;
      try (by rewrite load_template_action_without_mapping by done).
    pose proof (load_template_action_in_test_mode d index g) as H. cbn zeta in H.
    destruct (imread P _) as [im|]; [|by rewrite H].
    destruct H as (Ht & Hr & _ & Hgui).
    destruct (exec_LOAD_TEMPLATE B P (VDict d) index true g) as [rt gt].
    destruct (exec_LOAD_TEMPLATE B P (VDict d) index false g) as [rr gr].
    cbn in *. by subst.
  - intros act d im Hi Hact Htype Hparams name path Him.
    rewrite !(execute_action_at _ _ g act Hi Hact).
    unfold dispatch, type_is. rewrite Htype, Hparams.
    cbn [String.eqb Ascii.eqb Bool.eqb].
    pose proof (load_template_action_in_test_mode d index g) as H. cbn zeta in H.
    fold name path in H. rewrite Him in H.
    destruct H as (Ht & Hr & Hcalls & Hgui).
    destruct (exec_LOAD_TEMPLATE B P (VDict d) index true g) as [rt gt].
    destruct (exec_LOAD_TEMPLATE B P (VDict d) index false g) as [rr gr].
    cbn in *. by subst.
  - intros Hnone. unfold _execute_action.
    destruct (Z.ltb_spec index 0); [done|].
    destruct (Z.leb_spec (len g) index); [done|]. cbn [orb].
    destruct (actions g !! _) as [act|] eqn:Hact; [|done].
    unfold dispatch.
    destruct (type_is act "WAIT"); [done|].
    destruct (type_is act "SCREENSHOT"); [done|].
    destruct (type_is act "LOAD_TEMPLATE") eqn:Htype; [|done].
    apply type_is_true in Htype.
    destruct (params act) as [| | | | | | |d] eqn:Hparams;
      try (by rewrite load_template_action_without_mapping by done).
    pose proof (load_template_action_in_test_mode d index g) as Hsame.
    cbn zeta in Hsame. rewrite (Hnone act d) in Hsame by (done || lia).
    by rewrite Hsame.
Qed.

(** The stop flag along a run that starts with the flag clear: it is set
    at the end exactly when [stop_script] was called before one of the
    tests the run made, and the way the run ended tells the rest. *)
Lemma runner_while_stop_flag tape : ∀ i g,
  stop_flag g = false →
  let o := runner_while B P tape i g in
  actions (gui o) = actions g ∧
  (stop_flag (gui o) = true ↔ true ∈ take (S (length (fetched o))) tape) ∧
  match run_state o with
  | STOPPED => stop_flag (gui o) = true ∧ pc o < len g
  | DONE => len g ≤ pc o
  | RUNNING => stop_flag (gui o) = false
  end.
Proof.
  unfold stop_flag. cbn zeta.
  induction tape as [|stop_called tape IH]; intros i g Hflag.
  - cbn [runner_while]. destruct (Z.ltb_spec i (len g)); cbn;
      rewrite Hflag; (repeat split; try done; try lia); by intros ?%elem_of_nil.
  - destruct (Z.ltb_spec i (len g)) as [Hlt|Hge].
    2:{ rewrite runner_while_done by done. cbn [gui fetched run_state pc length take].
        destruct stop_called; cbn; rewrite ?Hflag.
        - repeat split; try done. intros _. by left.
        - repeat split; try done. by intros [=]%list_elem_of_singleton. }
    destruct stop_called.
    { rewrite runner_while_stopped by auto. cbn. repeat split; try done.
      intros _. by left. }
    rewrite runner_while_step by done. cbn zeta.
    pose proof (execute_action_loop_view B P i false g) as Hview.
    destruct (_execute_action B P i false g) as [jumped g3]; cbn [fst snd] in *.
    unfold loop_view, stop_flag in Hview. injection Hview as Hacts Hflag3.
    assert (len g3 = len g) as Hlen by (unfold len; by rewrite Hacts).
    set (i' := match jumped with Some t => clamp_jump (len g) t | None => i + 1 end).
    destruct (IH i' g3) as (Hkeep & Hiff & Hend); [congruence|].
    cbn [gui fetched run_state pc length]. rewrite Hlen in Hend.
    split; [congruence|]. split; [|done].
    rewrite Hiff. change (take (S (S ?n)) (false :: ?l)) with (false :: take (S n) l).
    rewrite elem_of_cons. naive_solver.
Qed.

(** X22. A run never changes the script, and no action can set or clear
    the stop flag: after [run_script] the script is the one it started
    with, and the stop flag is set exactly when [stop_script] was called
    before one of the tests the run made (a stop requested before
    [run_script] is forgotten). A run ends stopped exactly when it ends
    with the flag set and an action still to run; a call of [stop_script]
    that comes during the last action leaves the flag set on a run that is
    done. *)
Theorem run_keeps_script_and_owns_no_stop tape g :
  let o := run_script B P tape g in
  actions (gui o) = actions g ∧
  (stop_flag (gui o) = true ↔ true ∈ take (S (length (fetched o))) tape) ∧
  (run_state o = STOPPED ↔ stop_flag (gui o) = true ∧ pc o < len g) ∧
  (run_state o = DONE → pc o = len g).
Proof.
  unfold run_script, _runner_loop.
  set (g0 := (set_status "Running" (clear_stop g).2).2).
  destruct (runner_while_stop_flag tape 0 g0) as (Hkeep & Hiff & Hend); [done|].
  destruct (runner_while_invariant B P tape 0 g0) as (Hpc & Hdone & _);
    [unfold len; lia|].
  change (len g0) with (len g) in *. cbn zeta.
  split; [by rewrite Hkeep|]. split; [done|]. split.
  - destruct (run_state (runner_while B P tape 0 g0)); split; try done.
    + intros [Hflag _]. congruence.
    + intros [_ Hlt]. lia.
  - intros Hstate. by apply Hdone.
Qed.

(** *** Clicking the match, and what the editor builds *)

(** X23. A CLICK_MATCH action whose numbers are usable never fails, never
    jumps and leaves the runtime as it was. Without a last match its one
    call is the message "No last match to click."; with one, its one call
    is the click, at the match's corner moved by half its size when
    ["center"] is true (the default) and by the offsets. *)
Theorem click_match_action_clicks_or_tells index test_mode g act d clicks interval ox oy :
  0 ≤ index < len g →
  actions g !! Z.to_nat index = Some act →
  type act = VStr "CLICK_MATCH" →
  params act = VDict d →
  py_int B (default (VInt 1) (d !! "clicks")) = Ok clicks →
  py_float B (default (VFloat 0.05) (d !! "interval")) = Ok interval →
  py_int B (default (VInt 0) (d !! "offset_x")) = Ok ox →
  py_int B (default (VInt 0) (d !! "offset_y")) = Ok oy →
  let button := py_str B (default (VStr "left") (d !! "button")) in
  let center := py_bool (default (VBool true) (d !! "center")) in
  let after := _execute_action B P index test_mode g in
  after.1 = None ∧
  runtime after.2 = runtime g ∧
  calls after.2 =
    (calls g ++
     [match last_match (runtime g) with
      | None => EvShowInfo "CLICK_MATCH" "No last match to click."
      | Some m =>
          EvClick (m_x m + (if center then m_w m `div` 2 else 0) + ox)
                  (m_y m + (if center then m_h m `div` 2 else 0) + oy)
                  clicks button interval
      end])%list.
Proof.
  intros Hi Hact Htype Hparams Hclicks Hinterval Hox Hoy button center after.
  subst after. rewrite (execute_action_at index test_mode g act Hi Hact).
  unfold dispatch, type_is. rewrite Htype, Hparams.
  cbn [String.eqb Ascii.eqb Bool.eqb].
  unfold exec_CLICK_MATCH, arg_str, arg_int, arg_float, arg_bool, p_get, lift,
    click_match, set_status, get_runtime, call.
  run_m. rewrite Hclicks. run_m. rewrite Hinterval. run_m.
  rewrite Hox. run_m. rewrite Hoy. run_m. cbn.
  by destruct (last_match (runtime g)) as [m|].
Qed.

Lemma cast_literal_twice value :
  cast_literal B (cast_literal B value) = cast_literal B value.
Proof.
  destruct value as [| | | |s| | |]; try reflexivity. cbn.
  destruct (_ || _) eqn:Hbool; [reflexivity|].
  destruct (contains_dot s) eqn:Hdot.
  - destruct (float_of_str B s) eqn:Hf; [reflexivity|]. cbn.
    by rewrite Hbool, Hdot, Hf.
  - destruct (int_of_str B s) eqn:Hz; [reflexivity|]. cbn.
    by rewrite Hbool, Hdot, Hz.
Qed.

Lemma auto_cast_is_cast_literal v : auto_cast B v = cast_literal B (VStr v).
Proof. reflexivity. Qed.

Lemma set_var_action_from_form index test_mode g name_text value_text :
  0 ≤ index < len g →
  actions g !! Z.to_nat index =
    Some (mkBotAction (VStr "SET_VAR")
            (VDict (_collect_params B [("name", name_text); ("value", value_text)]))) →
  let name := py_str B (auto_cast B name_text) in
  let value := auto_cast B value_text in
  let after := _execute_action B P index test_mode g in
  after.1 = None ∧
  vars (runtime after.2) = <[name := value]> (vars (runtime g)) ∧
  calls after.2 = (calls g ++ [EvUpdatePreview []])%list.
Proof.
  intros Hi Hact name value after.
  subst after. rewrite (execute_action_at index test_mode g _ Hi Hact).
  unfold dispatch, type_is. cbn [type params String.eqb Ascii.eqb Bool.eqb].
  unfold exec_SET_VAR, arg_str, p_get, lift, _collect_params.
  cbn [foldl fst snd].
  rewrite (lookup_insert_ne _ "value" "name") by done.
  rewrite !lookup_insert_eq.
  run_m. cbn [default]. unfold id.
  rewrite !auto_cast_is_cast_literal, cast_literal_twice.
  rewrite <- !auto_cast_is_cast_literal. fold name. fold value.
  unfold set_var, update_preview, set_status, modify_runtime, get_runtime,
    put_runtime, call.
  run_m. done.
Qed.

(** X24. What the editor builds, SET_VAR stores: the SET_VAR action that
    [add_action] appends for the form texts [name_text] and [value_text],
    when executed, sets the variable
    named by the text of the cast name to the cast value, exactly as
    [_collect_params] cast it (the handler's own cast changes nothing
    more), without error or jump. The name goes through the cast too, so
    a name typed as ["true"] is the variable ["True"]. *)
Theorem editor_set_var_stores_cast_value test_mode g name_text value_text :
  let g1 := (add_action B "SET_VAR" [("name", name_text); ("value", value_text)] g).2 in
  let name := py_str B (auto_cast B name_text) in
  let value := auto_cast B value_text in
  let after := _execute_action B P (len g) test_mode g1 in
  actions g1 =
    (actions g ++
     [mkBotAction (VStr "SET_VAR")
        (VDict (<["value" := value]> (<["name" := auto_cast B name_text]> ∅)))])%list ∧
  after.1 = None ∧
  vars (runtime after.2) = <[name := value]> (vars (runtime g)) ∧
  calls after.2 = (calls g ++ [EvUpdatePreview []])%list.
Proof.
  intros g1 name value after. split; [done|].
  apply (set_var_action_from_form (len g) test_mode g1 name_text value_text).
  - subst g1. unfold len, add_action, put_actions. cbn.
    rewrite length_app. cbn. lia.
  - subst g1. unfold len, add_action, put_actions. cbn.
    rewrite Nat2Z.id. by rewrite lookup_app_r, Nat.sub_diag.
Qed.

End HandlerFacts.

(** ** Script files and the script editor *)

Lemma from_dict_value_record v a :
  from_dict_value v = Ok a ↔ record_of v a.
Proof.
  unfold record_of, from_dict_value, from_dict. split.
  - destruct v as [| | | | | | |d]; try done.
    destruct (d !! "type") as [t|] eqn:Ht; [|done].
    intros [= <-]. by exists d.
  - intros (d & -> & Ht & Hp). rewrite Ht. destruct a as [t p]. cbn in *.
    by rewrite Hp.
Qed.

Lemma from_dict_each_records items acts :
  from_dict_each items = Ok acts ↔ Forall2 record_of items acts.
Proof.
  revert acts. induction items as [|v items IH]; intros acts; cbn.
  - split; [intros [= <-]; constructor|by intros ->%Forall2_nil_inv_l].
  - run_m. split.
    + destruct (from_dict_value v) as [a|e] eqn:Ha; [|done].
      destruct (from_dict_each items) as [acts'|e] eqn:Hacts; [|done].
      intros [= <-]. constructor; [by apply from_dict_value_record|by apply IH].
    + intros (a & acts' & Ha & Hacts & ->)%Forall2_cons_inv_l.
      apply from_dict_value_record in Ha. apply IH in Hacts.
      by rewrite Ha, Hacts.
Qed.

(** X12. Loading a script file is all or nothing. When every item of the
    file is a dict with a ["type"], the script becomes these actions, in
    the file's order, and no message is shown; when one item is not, the
    script and the status stay as they were and one error is shown. Either
    way the runtime (variables, templates, frame, last match) is not
    touched. *)
Theorem load_script_all_or_nothing answer path data items g :
  _confirm_discard answer g = true →
  path ≠ "" →
  py_iter data = Ok items →
  let g' := (load_script answer path (Ok data) g).2 in
  runtime g' = runtime g ∧
  ((Forall2 record_of items (actions g') ∧
    calls g' = calls g ∧ status_var g' = "Loaded: " +:+ path) ∨
   ((¬ ∃ acts, Forall2 record_of items acts) ∧
    actions g' = actions g ∧ status_var g' = status_var g ∧
    ∃ e, calls g' =
           (calls g ++ [EvShowError "Error" ("Failed to load script:" +:+ nl) e])%list)).
Proof.
  intros Hconfirm Hpath Hiter. unfold load_script. rewrite Hconfirm. cbn [negb].
  apply String.eqb_neq in Hpath. rewrite Hpath.
  unfold try_except, lift, put_actions, set_status, call. run_m.
  rewrite Hiter.
  destruct (from_dict_each items) as [acts|e] eqn:Hacts; cbn.
  - split; [done|]. left. by apply from_dict_each_records in Hacts.
  - split; [done|]. right. repeat split; [|by exists e].
    intros [acts Hrec]. apply from_dict_each_records in Hrec. congruence.
Qed.

(** X25. [new_script], when the user agrees or there is no script to
    lose, empties the script, the variables and the last match, and keeps
    the templates, the cached frame and the stop flag; [click_match] then
    finds nothing to click. When the user declines, nothing changes. *)
Theorem new_script_resets_script_and_match answer g :
  let g' := (new_script answer g).2 in
  (_confirm_discard answer g = true →
     actions g' = [] ∧ vars (runtime g') = ∅ ∧ last_match (runtime g') = None ∧
     templates (runtime g') = templates (runtime g) ∧
     last_screenshot_bgr (runtime g') = last_screenshot_bgr (runtime g) ∧
     stop_requested (runtime g') = stop_requested (runtime g) ∧
     calls g' = calls g ∧
     ∀ button clicks interval center offset,
       click_match button clicks interval center offset g' = (Ok false, g')) ∧
  (_confirm_discard answer g = false → g' = g).
Proof.
  unfold new_script. split; intros Hconfirm; rewrite Hconfirm; [|done].
  cbn. repeat split.
Qed.

(** Swapping two neighbours, seen on the list. *)
Lemma swap_neighbours i acts acts' :
  (swap i (S i) acts = Some acts' ∨ swap (S i) i acts = Some acts') ↔
  ∃ l1 a b l2, length l1 = i ∧ acts = (l1 ++ a :: b :: l2)%list ∧
               acts' = (l1 ++ b :: a :: l2)%list.
Proof.
  unfold swap. split.
  - intros H.
    assert (∃ a b, acts !! i = Some a ∧ acts !! S i = Some b ∧
                   (acts' = <[S i := a]> (<[i := b]> acts) ∨
                    acts' = <[i := b]> (<[S i := a]> acts))) as (a & b & Ha & Hb & Hacts').
    { destruct H as [H|H];
        destruct (acts !! S i) as [b|]; try done;
        destruct (acts !! i) as [a|]; try done; cbn in H;
        injection H as <-; exists a, b; auto. }
    pose proof (take_drop_middle acts i a Ha) as Hsplit.
    assert (length (take i acts) = i) as Hlen.
    { apply length_take_le. apply lookup_lt_Some in Ha. lia. }
    assert (drop (S i) acts !! 0%nat = Some b) as Hb'.
    { rewrite lookup_drop. by rewrite Nat.add_0_r. }
    destruct (drop (S i) acts) as [|b' l2] eqn:Hdrop; [done|].
    injection Hb' as ->.
    set (l1 := take i acts) in *. clearbody l1. clear Hdrop H Ha Hb.
    subst acts. exists l1, a, b, l2. split; [done|]. split; [done|].
    assert (∀ x y : BotAction,
              <[S i := x]> (<[i := y]> (l1 ++ a :: b :: l2)%list)
              = (l1 ++ y :: x :: l2)%list) as Hins1.
    { intros x y. rewrite <- Hlen.
      rewrite (insert_app_r_alt l1 _ (length l1)) by lia.
      rewrite Nat.sub_diag. cbn.
      rewrite (insert_app_r_alt l1 _ (S (length l1))) by lia.
      by replace (S (length l1) - length l1)%nat with 1%nat by lia. }
    assert (∀ x y : BotAction,
              <[i := y]> (<[S i := x]> (l1 ++ a :: b :: l2)%list)
              = (l1 ++ y :: x :: l2)%list) as Hins2.
    { intros x y. rewrite <- Hlen.
      rewrite (insert_app_r_alt l1 _ (S (length l1))) by lia.
      replace (S (length l1) - length l1)%nat with 1%nat by lia. cbn.
      rewrite (insert_app_r_alt l1 _ (length l1)) by lia.
      by rewrite Nat.sub_diag. }
    destruct Hacts' as [->| ->]; [apply Hins1|apply Hins2].
  - intros (l1 & a & b & l2 & Hlen & -> & ->). left.
    rewrite <- Hlen.
    rewrite (lookup_app_r l1 _ (S (length l1))) by lia.
    replace (S (length l1) - length l1)%nat with 1%nat by lia. cbn.
    rewrite (lookup_app_r l1 _ (length l1)) by lia.
    rewrite Nat.sub_diag. cbn.
    rewrite (insert_app_r_alt l1 _ (length l1)) by lia.
    rewrite Nat.sub_diag. cbn.
    rewrite (insert_app_r_alt l1 _ (S (length l1))) by lia.
    by replace (S (length l1) - length l1)%nat with 1%nat by lia.
Qed.

(** X13. Moving the selected action up keeps the script a rearrangement
    of what it was (same actions, same length): it exchanges the action
    with the one before it, and the selection follows it. Unless the
    action was already first, moving the newly selected action down gives
    the original script back, with the original selection. *)
Theorem move_up_then_down_restores i acts acts' sel :
  move_action_up (Some i) acts = Some (acts', sel) →
  acts' ≡ₚ acts ∧
  (i ≠ 0%nat → sel = Some (i - 1)%nat ∧
               move_action_down sel acts' = Some (acts, Some i)).
Proof.
  destruct i as [|i]; cbn.
  { intros [= <- <-]. split; [done|lia]. }
  destruct (swap i (S i) acts) as [acts1|] eqn:Hswap; [|done].
  cbn. intros [= <- <-].
  destruct (proj1 (swap_neighbours i acts acts1) (or_introl Hswap))
    as (l1 & a & b & l2 & Hlen & -> & ->).
  split.
  { apply Permutation_app_head, perm_swap. }
  intros _. split; [f_equal; lia|].
  replace (S i - 1)%nat with i by lia. cbn.
  rewrite length_app. cbn.
  destruct (Z.leb_spec (Z.of_nat (length l1 + S (S (length l2))) - 1) (Z.of_nat i));
    [lia|].
  assert (swap (S i) i (l1 ++ b :: a :: l2)%list = Some (l1 ++ a :: b :: l2)%list)
    as ->; [|done].
  unfold swap. rewrite <- Hlen.
  rewrite (lookup_app_r l1 _ (length l1)) by lia.
  rewrite Nat.sub_diag. cbn.
  rewrite (lookup_app_r l1 _ (S (length l1))) by lia.
  replace (S (length l1) - length l1)%nat with 1%nat by lia. cbn.
  rewrite (insert_app_r_alt l1 _ (S (length l1))) by lia.
  replace (S (length l1) - length l1)%nat with 1%nat by lia. cbn.
  rewrite (insert_app_r_alt l1 _ (length l1)) by lia.
  by rewrite Nat.sub_diag.
Qed.

(** ** The book statistics *)

Lemma occurrences_snoc c text x :
  occurrences c (text ++ [x]) =
    occurrences c text + (if decide (x = c) then 1 else 0).
Proof.
  unfold occurrences. rewrite filter_app, length_app, filter_cons, filter_nil.
  destruct (decide (x = c)); cbn; lia.
Qed.

Lemma occurrences_absent c text : c ∉ text → occurrences c text = 0.
Proof.
  intros Hc. unfold occurrences.
  induction text as [|x text IH]; [done|].
  rewrite filter_cons. apply not_elem_of_cons in Hc as [Hne Hc].
  destruct (decide (x = c)); [congruence|]. by apply IH.
Qed.

Lemma elem_of_first_occurrences c text : c ∈ first_occurrences text ↔ c ∈ text.
Proof.
  induction text as [|x text IH]; cbn; [done|].
  rewrite !elem_of_cons, list_elem_of_filter, IH.
  destruct (decide (c = x)); naive_solver.
Qed.

Lemma NoDup_first_occurrences text : NoDup (first_occurrences text).
Proof.
  induction text as [|x text IH]; cbn; [constructor|].
  constructor; [|by apply NoDup_filter].
  rewrite list_elem_of_filter. naive_solver.
Qed.

Lemma first_occurrences_snoc text x :
  first_occurrences (text ++ [x]) =
    if decide (x ∈ text) then first_occurrences text
    else (first_occurrences text ++ [x])%list.
Proof.
  induction text as [|y text IH]; cbn.
  - destruct (decide (x ∈ [])) as [H|H]; [by apply elem_of_nil in H|done].
  - rewrite IH. destruct (decide (x ∈ text)) as [Hin|Hin].
    + destruct (decide (x ∈ y :: text)) as [_|Hno]; [done|].
      destruct Hno. by right.
    + rewrite filter_app, filter_cons, filter_nil.
      destruct (decide (x ≠ y)) as [Hne|Heq].
      * destruct (decide (x ∈ y :: text)) as [[->|?]%elem_of_cons|_]; done.
      * apply dec_stable in Heq as ->. rewrite app_nil_r.
        destruct (decide (y ∈ y :: text)) as [_|Hno]; [done|].
        destruct Hno. by left.
Qed.

Lemma dict_incr_counts x text keys :
  NoDup keys →
  dict_incr x ((λ c, (c, occurrences c text)) <$> keys) =
    (λ c, (c, occurrences c (text ++ [x]))) <$> keys.
Proof.
  induction keys as [|k keys IH]; intros Hnd; cbn; [done|].
  apply NoDup_cons in Hnd as [Hk Hnd].
  rewrite occurrences_snoc.
  destruct (decide (k = x)) as [->|Hne].
  - destruct (decide (x = x)); [|done]. f_equal.
    apply list_fmap_ext. intros i c Hc. rewrite occurrences_snoc.
    destruct (decide (x = c)) as [<-|]; [|by rewrite Z.add_0_r].
    destruct Hk. by eapply list_elem_of_lookup_2.
  - destruct (decide (x = k)); [congruence|]. rewrite Z.add_0_r.
    f_equal. by apply IH.
Qed.

Lemma insert_desc_perm x l : insert_desc x l ≡ₚ x :: l.
Proof.
  induction l as [|y l IH]; cbn; [done|].
  destruct (sort_on x <? sort_on y); [|done].
  rewrite IH. apply perm_swap.
Qed.

Lemma sort_desc_perm l : sort_desc l ≡ₚ l.
Proof.
  induction l as [|x l IH]; cbn; [done|].
  by rewrite insert_desc_perm, IH.
Qed.

Lemma insert_desc_sorted x l :
  StronglySorted num_ge l → StronglySorted num_ge (insert_desc x l).
Proof.
  induction l as [|y l IH]; cbn; intros Hl.
  - repeat constructor.
  - apply StronglySorted_inv in Hl as [Hl Hy].
    destruct (Z.ltb_spec (sort_on x) (sort_on y)) as [Hlt|Hge].
    + constructor; [by apply IH|].
      rewrite insert_desc_perm. constructor; [|done].
      unfold num_ge, sort_on in *. lia.
    + constructor; [by constructor|].
      constructor; [unfold num_ge, sort_on in *; lia|].
      eapply Forall_impl; [done|]. unfold num_ge, sort_on in *. cbn. lia.
Qed.

Lemma sort_desc_sorted l : StronglySorted num_ge (sort_desc l).
Proof.
  induction l as [|x l IH]; cbn; [constructor|].
  by apply insert_desc_sorted.
Qed.

Lemma insert_desc_ties n x l :
  filter (λ e, num e = n) (insert_desc x l) =
  filter (λ e, num e = n) (x :: l).
Proof.
  induction l as [|y l IH]; cbn; [done|].
  destruct (Z.ltb_spec (sort_on x) (sort_on y)) as [Hlt|Hge]; [|done].
  unfold sort_on in Hlt.
  rewrite (filter_cons _ y), IH, !filter_cons.
  destruct (decide (num y = n)), (decide (num x = n)); try done. lia.
Qed.

Lemma sort_desc_ties n l :
  filter (λ e, num e = n) (sort_desc l) = filter (λ e, num e = n) l.
Proof.
  induction l as [|x l IH]; cbn; [done|].
  by rewrite insert_desc_ties, !filter_cons, IH.
Qed.

Section BookFacts.

Context (str_lower : list N → list N) (isalpha isspace : N → bool).

Lemma get_uniq_char_count_counts file_contents :
  get_uniq_char_count str_lower file_contents =
    (λ c, (c, occurrences c (str_lower file_contents)))
      <$> first_occurrences (str_lower file_contents).
Proof.
  unfold get_uniq_char_count.
  induction (str_lower file_contents) as [|x text IH] using rev_ind; [done|].
  rewrite foldl_app. cbn [foldl]. rewrite IH. unfold count_one, dict_has.
  rewrite <- list_fmap_compose. cbn. rewrite list_fmap_id.
  rewrite first_occurrences_snoc.
  destruct (decide (x ∈ text)) as [Hin|Hin].
  - rewrite bool_decide_eq_true_2 by by apply elem_of_first_occurrences.
    apply dict_incr_counts, NoDup_first_occurrences.
  - rewrite bool_decide_eq_false_2 by by rewrite elem_of_first_occurrences.
    rewrite fmap_app. cbn. f_equal.
    + apply list_fmap_ext. intros i c Hc. rewrite occurrences_snoc.
      destruct (decide (x = c)) as [<-|]; [|by rewrite Z.add_0_r].
      destruct Hin. apply elem_of_first_occurrences.
      by eapply list_elem_of_lookup_2.
    + rewrite occurrences_snoc, occurrences_absent by done.
      by destruct (decide (x = x)).
Qed.

(** X14. The dict [get_uniq_char_count] returns holds each distinct
    character of the lowered text exactly once, in the order of first
    appearance, with the number of times it occurs in the lowered text. *)
Theorem char_count_closed_form file_contents :
  let text := str_lower file_contents in
  get_uniq_char_count str_lower file_contents =
    (λ c, (c, occurrences c text)) <$> first_occurrences text.
Proof. apply get_uniq_char_count_counts. Qed.

Lemma total_count_one d x : total (count_one d x) = total d + 1.
Proof.
  unfold count_one, dict_has, total. case_bool_decide as Hin.
  - induction d as [|[k n] d IH]; [by apply elem_of_nil in Hin|]. cbn in *.
    destruct (decide (k = x)); cbn; [lia|].
    apply elem_of_cons in Hin as [->|Hin]; [done|].
    rewrite IH by done. lia.
  - rewrite fmap_app, foldr_app. cbn.
    induction d as [|[k n] d IH]; cbn in *; [done|].
    rewrite IH; [lia|]. intros Hd. apply Hin. by right.
Qed.

(** X15. The counts of [get_uniq_char_count] add up to the length of the
    lowered text: every character is counted once. *)
Theorem char_counts_add_up file_contents :
  total (get_uniq_char_count str_lower file_contents) =
    Z.of_nat (length (str_lower file_contents)).
Proof.
  unfold get_uniq_char_count.
  induction (str_lower file_contents) as [|x text IH] using rev_ind; [done|].
  rewrite foldl_app. cbn [foldl]. rewrite total_count_one, IH, length_app.
  cbn. lia.
Qed.

(** X16. Whatever the dict, [sort_dict] returns its entries with an
    alphabetic character, all of them and nothing else, arranged by
    decreasing count. *)
Theorem sort_dict_sorts_the_letters dict :
  StronglySorted num_ge (sort_dict isalpha dict) ∧
  sort_dict isalpha dict ≡ₚ
    (λ kv, mkCharNum kv.1 kv.2) <$> filter (λ kv, isalpha kv.1 = true) dict.
Proof.
  unfold sort_dict. split; [apply sort_desc_sorted|apply sort_desc_perm].
Qed.

(** X17. [sort_dict] is stable: the characters that have the same count
    come out in the order the dict has them. *)
Theorem sort_dict_keeps_ties_in_order dict n :
  filter (λ e, num e = n) (sort_dict isalpha dict) =
  filter (λ e, num e = n)
    ((λ kv, mkCharNum kv.1 kv.2) <$> filter (λ kv, isalpha kv.1 = true) dict).
Proof. unfold sort_dict. apply sort_desc_ties. Qed.

(** X18. The letter table of a book: [sort_dict] of
    [get_uniq_char_count] lists every alphabetic character of the lowered
    text once, with the number of times it occurs there, by decreasing
    count; nothing else is listed. *)
Theorem letter_table_of_book file_contents :
  let text := str_lower file_contents in
  let table := sort_dict isalpha (get_uniq_char_count str_lower file_contents) in
  StronglySorted num_ge table ∧
  NoDup (char <$> table) ∧
  (∀ c n, mkCharNum c n ∈ table ↔
          isalpha c = true ∧ c ∈ text ∧ n = occurrences c text).
Proof.
  cbn zeta. rewrite get_uniq_char_count_counts.
  set (text := str_lower file_contents).
  pose proof (sort_desc_sorted
                ((λ kv, mkCharNum kv.1 kv.2) <$>
                 filter (λ kv, isalpha kv.1 = true)
                   ((λ c, (c, occurrences c text)) <$> first_occurrences text)))
    as Hsorted.
  pose proof (sort_desc_perm
                ((λ kv, mkCharNum kv.1 kv.2) <$>
                 filter (λ kv, isalpha kv.1 = true)
                   ((λ c, (c, occurrences c text)) <$> first_occurrences text)))
    as Hperm.
  fold (sort_dict isalpha
          ((λ c, (c, occurrences c text)) <$> first_occurrences text)) in *.
  split; [done|]. split.
  - rewrite Hperm. rewrite <- list_fmap_compose.
    apply NoDup_fmap_2_strong.
    + intros [c1 n1] [c2 n2]
        [_ (c1' & [= -> ->] & _)%list_elem_of_fmap]%list_elem_of_filter
        [_ (c2' & [= -> ->] & _)%list_elem_of_fmap]%list_elem_of_filter.
      cbn. by intros ->.
    + apply NoDup_filter.
      apply NoDup_fmap_2_strong; [|apply NoDup_first_occurrences].
      by intros c1 c2 _ _ [= -> _].
  - intros c n. rewrite Hperm.
    rewrite list_elem_of_fmap. split.
    + intros ([c' n'] & Heq & Hin). cbn in Heq. injection Heq as -> ->.
      apply list_elem_of_filter in Hin as [Halpha Hin].
      apply list_elem_of_fmap in Hin as (c'' & Heq & Hc).
      injection Heq as -> ->.
      apply (proj1 (elem_of_first_occurrences _ _)) in Hc.
      split; [exact Halpha|]. split; [exact Hc|reflexivity].
    + intros (Halpha & Hc & ->). exists (c, occurrences c text).
      split; [done|]. apply list_elem_of_filter. split; [done|].
      apply list_elem_of_fmap. exists c. split; [done|].
      by apply elem_of_first_occurrences.
Qed.

Lemma split_from_space word a sp b :
  isspace sp = true →
  split_from isspace word (a ++ sp :: b) =
    (split_from isspace word a ++ split_from isspace [] b)%list.
Proof.
  intros Hsp. revert word. induction a as [|c a IH]; intros word; cbn.
  - rewrite Hsp. by destruct word.
  - destruct (isspace c); [|apply IH].
    destruct word; cbn; by rewrite IH.
Qed.

Lemma split_from_spaces word s :
  Forall (λ c, isspace c = true) s →
  split_from isspace word s = match word with [] => [] | _ => [word] end.
Proof.
  revert word. induction s as [|c s IH]; intros word Hs; cbn; [done|].
  apply Forall_cons in Hs as [-> Hs].
  destruct word; cbn; by rewrite IH.
Qed.

Lemma split_from_word word s :
  Forall (λ c, isspace c = false) s →
  split_from isspace word s =
    match (word ++ s)%list with [] => [] | w => [w] end.
Proof.
  revert word. induction s as [|c s IH]; intros word Hs; cbn.
  - rewrite app_nil_r. by destruct word.
  - apply Forall_cons in Hs as [-> Hs]. rewrite IH by done.
    by rewrite <- app_assoc.
Qed.

(** X19. [get_num_words] counts the words: a text of whitespace only has
    none, a non-empty text without whitespace is one word, and the count of
    two texts put together with a whitespace character between them is the
    sum of their counts. *)
Theorem word_count_adds_up a b sp :
  (Forall (λ c, isspace c = true) a → get_num_words isspace a = 0) ∧
  (a ≠ [] → Forall (λ c, isspace c = false) a → get_num_words isspace a = 1) ∧
  (isspace sp = true →
     get_num_words isspace (a ++ sp :: b) =
       get_num_words isspace a + get_num_words isspace b).
Proof.
  unfold get_num_words, split. cbn zeta. split; [|split].
  - intros Ha. by rewrite split_from_spaces.
  - intros Hne Ha. rewrite split_from_word by done. cbn. by destruct a.
  - intros Hsp. rewrite split_from_space by done. rewrite length_app. lia.
Qed.

End BookFacts.

Lemma foldl_add_line text lines :
  text ≠ [] →
  foldl add_line text lines =
    (text ++ mjoin ((λ s, newline ++ report_line s)%list <$> lines))%list.
Proof.
  revert text. induction lines as [|s lines IH]; intros text Htext; cbn.
  - by rewrite app_nil_r.
  - rewrite IH.
    + unfold add_line. destruct text; [done|]. cbn. by rewrite <- ?app_assoc.
    + unfold add_line. by destruct text.
Qed.

Lemma join_lines_cons line lines :
  join_lines (line :: lines) =
    (line ++ mjoin ((λ l, newline ++ l)%list <$> lines))%list.
Proof.
  revert line. induction lines as [|l lines IH]; intros line.
  - cbn. by rewrite app_nil_r.
  - change (join_lines (line :: l :: lines))
      with (line ++ newline ++ join_lines (l :: lines))%list.
    rewrite IH. cbn. by rewrite <- ?app_assoc.
Qed.

(** X20. The character section of the report is the lines of the entries,
    one ["c: n"] per entry in the order given, joined by single newlines:
    no blank line, and no newline before the first or after the last. *)
Theorem report_lists_one_line_per_entry word_count sorted_dicts book_path :
  generate_report word_count sorted_dicts book_path =
    (newline
     ++ lit "============ BOOKBOT ============" ++ newline
     ++ lit "Analyzing book found at " ++ book_path ++ lit "..." ++ newline
     ++ lit "----------- Word Count ----------" ++ newline
     ++ lit "Found " ++ str_int word_count ++ lit " total words" ++ newline
     ++ lit "--------- Character Count -------" ++ newline
     ++ join_lines (report_line <$> sorted_dicts) ++ newline
     ++ lit "============= END ===============" ++ newline)%list.
Proof.
  unfold generate_report. cbn zeta. do 15 f_equal.
  destruct sorted_dicts as [|s lines]; [done|].
  cbn [foldl fmap list_fmap]. fold (fmap (M:=list) report_line lines).
  change (add_line [] s) with (report_line s).
  rewrite foldl_add_line by done. rewrite join_lines_cons.
  by rewrite <- list_fmap_compose.
Qed.


(** ** Properties of the action model *)

Lemma from_dict_to_dict (a : BotAction) : from_dict (to_dict a) = Ok a.
Proof.
  unfold from_dict, to_dict.
  rewrite lookup_insert_ne by done.
  rewrite lookup_insert_eq.
  rewrite lookup_insert_eq.
  by destruct a.
Qed.

(** C8. Serialising every action of a script with [to_dict] and reading the
    records back with [from_dict] gives the script back: same actions, in
    the same order, each with the very [type] and [params] values it had
    (so every primitive keeps its Python type). *)
Theorem script_round_trip (script : list BotAction) :
  script_from_dicts (script_to_dicts script) = Ok script.
Proof.
  induction script as [|a script IH]; [done|].
  unfold script_to_dicts in *. cbn [fmap list_fmap script_from_dicts].
  change (list_fmap _ _ to_dict script) with (to_dict <$> script).
  by rewrite from_dict_to_dict, IH.
Qed.

(** C10. A record without a ["type"] key is not read as an action:
    [from_dict] raises [KeyError]; a record with a ["type"] key and without
    a ["params"] key is read, with an empty mapping as its params. *)
Theorem from_dict_defaults_params_only (d : gmap string PyVal) :
  (d !! "type" = None → from_dict d = Raise (KeyError "type")) ∧
  (∀ t, d !! "type" = Some t → d !! "params" = None →
        from_dict d = Ok (mkBotAction t (VDict ∅))).
Proof.
  unfold from_dict. split.
  - by intros ->.
  - by intros t -> ->.
Qed.

Lemma from_dict_defaults_params_only_witness :
  from_dict (<["params" := VDict ∅]> ∅) = Raise (KeyError "type") ∧
  from_dict (<["type" := VStr "WAIT"]> ∅) = Ok (mkBotAction (VStr "WAIT") (VDict ∅)).
Proof.
  split.
  - apply (proj1 (from_dict_defaults_params_only (<["params" := VDict ∅]> ∅))).
    reflexivity.
  - apply (proj2 (from_dict_defaults_params_only (<["type" := VStr "WAIT"]> ∅))
             (VStr "WAIT")); reflexivity.
Defined.

(** ** The properties at work on concrete scripts *)

Lemma if_goto_resumes_at_clamped_target_witness :
  let g := fresh_gui looping_script in
  let d : gmap string PyVal :=
    list_to_map [("expr", VStr "True"); ("index", VInt (-5))] in
  let expr := py_str test_builtins (default (VStr "False") (d !! "expr")) in
  let next := Z.max 0 (Z.min (len g - 1) (-5)) in
  let rest :=
    runner_while test_builtins test_providers [false] next
      (after_if_goto test_providers 1 (-5) expr g) in
  0 ≤ next < len g ∧
  runner_while test_builtins test_providers [false; false] 1 g =
    mkOutcome (run_state rest) (pc rest) (gui rest) (1 :: fetched rest).
Proof.
  intros g d.
  refine (proj2 (if_goto_resumes_at_clamped_target test_builtins test_providers)
            [false] 1 g
            (action "IF_GOTO" [("expr", VStr "True"); ("index", VInt (-5))])
            d (-5) (VBool true) _ _ _ _ _ _ _ _).
  - vm_compute. split; congruence.
  - reflexivity.
  - reflexivity.
  - reflexivity.
  - reflexivity.
  - vm_compute. reflexivity.
  - vm_compute. reflexivity.
  - reflexivity.
Defined.

(** A true condition that writes a variable: the jump is taken and the
    variable is in the store the run goes on with. *)
Example true_condition_can_write_vars :
  let out := _execute_action test_builtins test_providers 0 false
               (fresh_gui writing_condition_script) in
  out.1 = Some 0 ∧ vars (runtime out.2) !! "a" = Some (VInt 1).
Proof. vm_compute. split; reflexivity. Qed.

(** The jump to -5 lands on index 0: the run fetches 1, then 0. *)
Example looping_script_fetches :
  fetched (runner_while test_builtins test_providers [false; false] 1
             (fresh_gui looping_script)) = [1; 0].
Proof. vm_compute. reflexivity. Qed.

Lemma done_run_ends_at_script_length_witness :
  let o := _runner_loop test_builtins test_providers [false; false; false]
             (fresh_gui straight_script) in
  run_state o = DONE ∧ pc o = 2 ∧ status_var (gui o) = "Done".
Proof.
  intros o.
  assert (run_state o = DONE) as Hdone by (vm_compute; reflexivity).
  split; [exact Hdone|].
  exact (proj2 (done_run_ends_at_script_length test_builtins test_providers
                  [false; false; false] (fresh_gui straight_script)) Hdone).
Defined.

Lemma no_action_after_stop_observed_witness :
  let g := fresh_gui straight_script in
  let o1 := runner_while test_builtins test_providers [true; false; false] 0 g in
  let o2 := runner_while test_builtins test_providers [false; true; false] 0 g in
  (run_state o1 = STOPPED ∧ fetched o1 = [] ∧ calls (gui o1) = []) ∧
  (run_state o2 = STOPPED ∧ fetched o2 = [0] ∧ pc o2 = 1).
Proof.
  intros g o1 o2.
  pose proof (no_action_after_stop_observed test_builtins test_providers)
    as (Hseen & Hflight & _).
  split.
  - destruct (Hseen true [false; false] 0 g) as (Hs & _ & _ & Hf & Hc & _).
    + vm_compute. reflexivity.
    + left. reflexivity.
    + exact (conj Hs (conj Hf Hc)).
  - destruct (Hflight [false] 0 g) as (Hs & Hf & Hp & _).
    + vm_compute. split; congruence.
    + reflexivity.
    + vm_compute. reflexivity.
    + exact (conj Hs (conj Hf Hp)).
Defined.

(** C3, on the code: with a last match stored and the name ["missing"] not
    registered, [find_template] returns [None] and the stored match is
    still there. *)
Theorem find_template_unregistered_keeps_stale_match :
  let out := find_template test_providers "missing" 0.85 TM_CCOEFF_NORMED
               (busy_gui []) in
  out.1 = Ok None ∧ last_match (runtime out.2) = Some earlier_match.
Proof. apply (find_template_unregistered test_providers). reflexivity. Qed.

(** What follows from it in a script: FIND_TEMPLATE on the missing name
    records "no match" in the variables, and the CLICK_MATCH after it
    still clicks the earlier match. *)
Example stale_match_is_clicked :
  let o := _runner_loop test_builtins test_providers [false; false; false]
             (busy_gui [ action "FIND_TEMPLATE" [("name", VStr "missing")];
                         action "CLICK_MATCH" [] ]) in
  run_state o = DONE ∧
  vars (runtime (gui o)) !! "last_match_name" = Some VNone ∧
  injections (calls (gui o)) = [EvClick 13 22 1 "left" 0.05].
Proof. vm_compute. repeat split; reflexivity. Qed.

(** The score [find_template] keeps is not confined to [0, 1]: with the
    plain cross-correlation method and a best value of 1000, the accepted
    match carries the score 1000. *)
Lemma find_template_score_outside_unit_interval :
  ¬ (∀ (P : Providers) name threshold method g m,
       (find_template P name threshold method g).1 = Ok (Some m) →
       in_unit_interval (m_score m) = true).
Proof.
  intros H.
  specialize (H test_providers "ok" 0.85%float TM_CCORR (busy_gui [])
                (mkMatch "ok" 1 1 2 2 1000%float) eq_refl).
  vm_compute in H. discriminate H.
Qed.

Lemma find_template_accepts_from_threshold_witness :
  let out1 := find_template test_providers "ok" 0.85 TM_CCORR (busy_gui []) in
  let out2 := find_template test_providers "ok" 0.85 TM_SQDIFF (busy_gui []) in
  (out1.1 = Ok (Some (mkMatch "ok" 1 1 2 2 1000)) ∧
   last_match (runtime out1.2) = Some (mkMatch "ok" 1 1 2 2 1000)) ∧
  (out2.1 = Ok None ∧ last_match (runtime out2.2) = None).
Proof.
  split.
  - exact (find_template_accepts_from_threshold test_providers "ok" 0.85 TM_CCORR
             (busy_gui []) test_template eq_refl).
  - exact (find_template_accepts_from_threshold test_providers "ok" 0.85 TM_SQDIFF
             (busy_gui []) test_template eq_refl).
Defined.

Lemma check_pixel_within_tolerance_witness :
  (check_pixel test_providers 2 1 190 10 30 10 (busy_gui [])).1 = Ok true ∧
  (check_pixel test_providers 2 1 189 10 30 10 (busy_gui [])).1 = Ok false ∧
  (check_pixel test_providers 4 1 190 10 30 10 (busy_gui [])).1 = Ok false.
Proof.
  split; [|split].
  - apply (proj1 (check_pixel_within_tolerance test_providers 2 1 190 10 30 10
                    (busy_gui []))).
    vm_compute. repeat split; congruence.
  - apply (proj1 (check_pixel_within_tolerance test_providers 2 1 189 10 30 10
                    (busy_gui []))).
    vm_compute. repeat split; congruence.
  - apply (proj2 (check_pixel_within_tolerance test_providers 4 1 190 10 30 10
                    (busy_gui []))).
    vm_compute. intros [[_ H] _]. discriminate H.
Defined.

Lemma click_match_clicks_last_match_witness :
  (let out := click_match "left" 1 0.05 true (0, 0) (fresh_gui []) in
   out.1 = Ok false ∧ out.2 = fresh_gui []) ∧
  (let out := click_match "left" 2 0.05 true (1, -1) (busy_gui []) in
   out.1 = Ok true ∧
   calls out.2 = [EvClick 14 21 2 "left" 0.05] ∧
   runtime out.2 = busy_runtime).
Proof.
  split.
  - apply (proj1 (click_match_clicks_last_match "left" 1 0.05 true (0, 0)
                    (fresh_gui []))).
    reflexivity.
  - apply (proj2 (click_match_clicks_last_match "left" 2 0.05 true (1, -1)
                    (busy_gui [])) earlier_match).
    reflexivity.
Defined.

(** C7, on the code: a CLICK_AT whose interval is -1.0 makes the click
    with the interval -1.0, which is below zero. *)
Theorem click_at_forwards_negative_interval :
  let out := _execute_action test_builtins test_providers 0 false
               (fresh_gui negative_interval_script) in
  calls out.2 = [EvClick 5 7 1 "left" (-1)] ∧
  PrimFloat.leb 0 (-1) = false.
Proof. vm_compute. split; reflexivity. Qed.

(** ** The further properties at work *)

Lemma jump_only_from_true_if_goto_witness :
  ∃ act d v,
    0 ≤ 1 < len (fresh_gui looping_script) ∧
    actions (fresh_gui looping_script) !! Z.to_nat 1 = Some act ∧
    type act = VStr "IF_GOTO" ∧
    params act = VDict d ∧
    py_int test_builtins (default (VInt 0) (d !! "index")) = Ok (-5) ∧
    ev_value
      (eval test_providers
         (py_str test_builtins (default (VStr "False") (d !! "expr")))
         (vars (runtime (fresh_gui looping_script)))
         (last_match (runtime (fresh_gui looping_script)))) = Ok v ∧
    py_bool v = true.
Proof.
  apply (jump_only_from_true_if_goto test_builtins test_providers 1 false
           (fresh_gui looping_script) (-5)
           (_execute_action test_builtins test_providers 1 false
              (fresh_gui looping_script)).2).
  vm_compute. reflexivity.
Defined.

Lemma straight_script_runs_to_done_witness :
  let o := run_script test_builtins test_providers (replicate 2 false)
             (fresh_gui straight_script) in
  run_state o = DONE ∧ pc o = len (fresh_gui straight_script) ∧
  fetched o = seqZ 0 (len (fresh_gui straight_script)) ∧
  status_var (gui o) = "Done".
Proof.
  apply (straight_script_runs_to_done test_builtins test_providers 2
           (fresh_gui straight_script)).
  - intros act Hact. unfold fresh_gui, straight_script in Hact. cbn in Hact.
    apply elem_of_cons in Hact as [->|Hact]; [discriminate|].
    apply elem_of_cons in Hact as [->|Hact]; [discriminate|].
    by apply elem_of_nil in Hact.
  - cbn. lia.
Defined.

Lemma unknown_action_only_warns_witness :
  _execute_action test_builtins test_providers 0 false (fresh_gui lowercase_script) =
    (None,
     mkBotGUI empty_runtime lowercase_script ""
       [EvShowWarning "Unknown Action" "Unknown action type: wait"]).
Proof.
  apply (unknown_action_only_warns test_builtins test_providers 0 false
           (fresh_gui lowercase_script) (action "wait" [("seconds", VInt 1)])).
  - vm_compute. split; congruence.
  - reflexivity.
  - intros kind Hkind Heq. injection Heq as <-.
    vm_compute in Hkind.
    repeat (apply elem_of_cons in Hkind as [Hkind|Hkind]; [discriminate|]).
    by apply elem_of_nil in Hkind.
Defined.

Lemma params_not_a_mapping_only_reports_witness :
  _execute_action test_builtins test_providers 0 false (fresh_gui null_params_script) =
    (None,
     mkBotGUI empty_runtime null_params_script ""
       [EvShowError "Action Error"
          ("Error at action #" +:+ pretty 0 +:+ " (" +:+ "WAIT" +:+ "):" +:+ nl)
          AttributeError]).
Proof.
  apply (params_not_a_mapping_only_reports test_builtins test_providers 0 false
           (fresh_gui null_params_script) (mkBotAction (VStr "WAIT") VNone) "WAIT").
  - vm_compute. split; congruence.
  - reflexivity.
  - reflexivity.
  - unfold SUPPORTED_ACTIONS. by left.
  - discriminate.
  - discriminate.
Defined.

Lemma run_never_passes_negative_timing_witness :
  Forall (λ ev, nonneg_timing ev = true)
    (calls (gui (run_script test_builtins test_providers
                   [false; false; false; false]
                   (fresh_gui negative_timing_script)))).
Proof.
  apply (run_never_passes_negative_timing test_builtins test_providers
           [false; false; false; false] (fresh_gui negative_timing_script)).
  cbn. constructor.
Defined.

(** The three negative timings of the script reach the providers as 0. *)
Example negative_timings_become_zero :
  calls (gui (run_script test_builtins test_providers
                [false; false; false; false]
                (fresh_gui negative_timing_script))) =
    [EvSleep 0; EvTypewrite "hi" 0; EvMoveTo 0 0 0].
Proof. vm_compute. reflexivity. Qed.

Lemma capture_only_when_cache_empty_witness :
  (calls (find_template test_providers "ok" 0.5 TM_CCORR (busy_gui [])).2 = [] ∧
   last_screenshot_bgr
     (runtime (find_template test_providers "ok" 0.5 TM_CCORR (busy_gui [])).2)
     = Some test_frame ∧
   (check_pixel test_providers 2 1 190 10 30 10 (busy_gui [])).2 = busy_gui []) ∧
  (calls (find_template test_providers "ok" 0.5 TM_CCORR (fresh_gui [])).2
     = [EvScreenshot] ∧
   last_screenshot_bgr
     (runtime (find_template test_providers "ok" 0.5 TM_CCORR (fresh_gui [])).2)
     = Some test_frame ∧
   calls (check_pixel test_providers 2 1 190 10 30 10 (fresh_gui [])).2
     = [EvScreenshot] ∧
   last_screenshot_bgr
     (runtime (check_pixel test_providers 2 1 190 10 30 10 (fresh_gui [])).2)
     = Some test_frame).
Proof.
  split.
  - apply (proj1 (capture_only_when_cache_empty test_providers "ok" 0.5 TM_CCORR
                    2 1 190 10 30 10 (busy_gui [])) test_frame).
    reflexivity.
  - apply (proj2 (capture_only_when_cache_empty test_providers "ok" 0.5 TM_CCORR
                    2 1 190 10 30 10 (fresh_gui []))).
    reflexivity.
Defined.

Lemma get_var_after_set_var_witness :
  let g' := (set_var "a" (VInt 1) (fresh_gui [])).2 in
  (get_var "a" VNone g').1 = Ok (VInt 1) ∧
  (get_var "b" (VInt 7) g').1 = Ok (VInt 7).
Proof.
  intros g'.
  pose proof (get_var_after_set_var "a" (VInt 1) "b" VNone (fresh_gui []))
    as (Hsame & _ & _).
  pose proof (get_var_after_set_var "a" (VInt 1) "b" (VInt 7) (fresh_gui []))
    as (_ & Hother & _).
  split; [exact Hsame|]. apply Hother. discriminate.
Defined.

Lemma if_goto_not_taken_falls_through_witness :
  let g := busy_gui clearing_condition_script in
  let d : gmap string PyVal :=
    list_to_map [("expr", VStr "last_match.clear()"); ("index", VInt 0)] in
  let expr := py_str test_builtins (default (VStr "False") (d !! "expr")) in
  let g' := after_if_goto test_providers 0 0 expr g in
  let rest := runner_while test_builtins test_providers [false] (0 + 1) g' in
  _execute_action test_builtins test_providers 0 false g = (None, g') ∧
  calls g' = calls g ∧
  runner_while test_builtins test_providers [false; false] 0 g =
    mkOutcome (run_state rest) (pc rest) (gui rest) (0 :: fetched rest).
Proof.
  intros g d.
  destruct (if_goto_not_taken_falls_through test_builtins test_providers [false] 0 g
              (action "IF_GOTO" [("expr", VStr "last_match.clear()"); ("index", VInt 0)])
              d 0)
    as (Hexec & Hcalls & _ & Hrun).
  - vm_compute. split; congruence.
  - reflexivity.
  - reflexivity.
  - reflexivity.
  - reflexivity.
  - vm_compute. reflexivity.
  - intros v Hv. vm_compute in Hv. injection Hv as <-. reflexivity.
  - exact (conj Hexec (conj Hcalls Hrun)).
Defined.

(** The false condition that empties the last match: the CLICK_MATCH after
    it finds no match to click. *)
Example falsy_condition_can_clear_last_match :
  let o := run_script test_builtins test_providers [false; false; false]
             (busy_gui clearing_condition_script) in
  run_state o = DONE ∧ fetched o = [0; 1] ∧
  last_match (runtime (gui o)) = None ∧ injections (calls (gui o)) = [].
Proof. vm_compute. repeat split; reflexivity. Qed.

(** The failing condition shows nothing: the run presses the key and is
    done. *)
Example failing_condition_is_silent :
  let o := run_script test_builtins test_providers [false; false; false]
             (fresh_gui failing_condition_script) in
  run_state o = DONE ∧ fetched o = [0; 1] ∧ calls (gui o) = [EvPress "enter"].
Proof. vm_compute. repeat split; reflexivity. Qed.

Lemma find_template_action_records_result_witness :
  let after := _execute_action test_builtins test_providers 0 false
                 (busy_gui find_script) in
  ∃ result,
    (find_template test_providers "ok" 0.5 TM_CCOEFF_NORMED
       (set_status (tag 0 +:+ "FIND_TEMPLATE " +:+ "ok" +:+ " thr="
                    +:+ str_of_float test_builtins 0.5) (busy_gui find_script)).2).1
      = Ok result ∧
    after.1 = None ∧
    vars (runtime after.2) !! "last_match_name" =
      Some (from_option (λ m, VStr (m_name m)) VNone result).
Proof.
  intros after.
  destruct (find_template_action_records_result test_builtins test_providers
              0 false (busy_gui find_script)
              (action "FIND_TEMPLATE" [("name", VStr "ok"); ("threshold", VFloat 0.5)])
              (list_to_map [("name", VStr "ok"); ("threshold", VFloat 0.5)])
              0.5)
    as (result & Hfound & Hnone & _ & _ & Hname & _).
  - vm_compute. split; congruence.
  - reflexivity.
  - reflexivity.
  - reflexivity.
  - vm_compute. reflexivity.
  - exists result. exact (conj Hfound (conj Hnone Hname)).
Defined.

(** The match found is the one the variables describe. *)
Example find_action_sets_variables :
  let after := _execute_action test_builtins test_providers 0 false
                 (busy_gui find_script) in
  vars (runtime after.2) !! "last_match_name" = Some (VStr "ok") ∧
  vars (runtime after.2) !! "last_match_xy" = Some (VTuple [VInt 1; VInt 1]) ∧
  last_match (runtime after.2) = Some (mkMatch "ok" 1 1 2 2 1000).
Proof. vm_compute. repeat split; reflexivity. Qed.

Lemma check_pixel_action_stores_answer_witness :
  let after := _execute_action test_builtins test_providers 0 false
                 (busy_gui check_script) in
  ∃ ok,
    (check_pixel test_providers 2 1 190 10 30 10
       (set_status (tag 0 +:+ "CHECK_PIXEL " +:+ pretty 2 +:+ "," +:+ pretty 1)
          (busy_gui check_script)).2).1 = Ok ok ∧
    after.1 = None ∧
    vars (runtime after.2) !! "seen" = Some (VBool ok).
Proof.
  intros after.
  destruct (check_pixel_action_stores_answer test_builtins test_providers
              0 false (busy_gui check_script)
              (action "CHECK_PIXEL"
                 [("x", VInt 2); ("y", VInt 1); ("r", VInt 190); ("g", VInt 10);
                  ("b", VInt 30); ("set_var", VStr "seen")])
              (list_to_map
                 [("x", VInt 2); ("y", VInt 1); ("r", VInt 190); ("g", VInt 10);
                  ("b", VInt 30); ("set_var", VStr "seen")])
              2 1 190 10 30 10)
    as (ok & Hok & Hnone & Hvar & _).
  - vm_compute. split; congruence.
  - reflexivity.
  - reflexivity.
  - reflexivity.
  - vm_compute. reflexivity.
  - vm_compute. reflexivity.
  - vm_compute. reflexivity.
  - vm_compute. reflexivity.
  - vm_compute. reflexivity.
  - vm_compute. reflexivity.
  - exists ok. exact (conj Hok (conj Hnone Hvar)).
Defined.

Lemma load_script_all_or_nothing_witness :
  (let g' := (load_script true "a.json" (Ok good_file) (fresh_gui straight_script)).2 in
   length (actions g') = 2%nat ∧ status_var g' = "Loaded: a.json" ∧ calls g' = []) ∧
  (let g' := (load_script true "b.json" (Ok bad_file) (fresh_gui straight_script)).2 in
   actions g' = straight_script ∧
   calls g' = [EvShowError "Error" ("Failed to load script:" +:+ nl) (KeyError "type")]).
Proof.
  split.
  - intros g'.
    destruct (load_script_all_or_nothing true "a.json" good_file
                [ VDict (list_to_map [("type", VStr "WAIT")]);
                  VDict (list_to_map [("type", VStr "PRESS_KEY");
                                      ("params", VDict (list_to_map [("key", VStr "a")]))]) ]
                (fresh_gui straight_script))
      as (_ & [(Hrec & Hcalls & Hstatus)|(_ & Hacts & _)]).
    + reflexivity.
    + discriminate.
    + reflexivity.
    + apply Forall2_length in Hrec.
      split; [symmetry; exact Hrec|]. split; [exact Hstatus|exact Hcalls].
    + exfalso. vm_compute in Hacts. discriminate Hacts.
  - intros g'.
    destruct (load_script_all_or_nothing true "b.json" bad_file
                [ VDict (list_to_map [("type", VStr "WAIT")]);
                  VDict (list_to_map [("params", VDict ∅)]) ]
                (fresh_gui straight_script))
      as (_ & [(Hrec & _)|(_ & Hacts & _ & e & Hcalls)]).
    + reflexivity.
    + discriminate.
    + reflexivity.
    + exfalso.
      apply Forall2_cons_inv_l in Hrec as (a1 & l1 & _ & Hrec & _).
      apply Forall2_cons_inv_l in Hrec as (a2 & l2 & (d & Hd & Ht & _) & _).
      injection Hd as <-. vm_compute in Ht. discriminate Ht.
    + split; [exact Hacts|]. vm_compute. reflexivity.
Defined.

Lemma move_up_then_down_restores_witness :
  move_action_down (Some 0%nat) (reverse straight_script) =
    Some (straight_script, Some 1%nat).
Proof.
  apply (move_up_then_down_restores 1 straight_script (reverse straight_script)
           (Some 0%nat)).
  - reflexivity.
  - discriminate.
Defined.

Lemma word_count_adds_up_witness :
  get_num_words ascii_isspace (lit "   ") = 0 ∧
  get_num_words ascii_isspace (lit "whale") = 1 ∧
  get_num_words ascii_isspace (lit "call me" ++ 32%N :: lit "Ishmael") =
    get_num_words ascii_isspace (lit "call me")
    + get_num_words ascii_isspace (lit "Ishmael").
Proof.
  split; [|split].
  - apply (proj1 (word_count_adds_up ascii_isspace (lit "   ") [] 32%N)).
    repeat constructor.
  - apply (proj1 (proj2 (word_count_adds_up ascii_isspace (lit "whale") [] 32%N))).
    + discriminate.
    + repeat constructor.
  - apply (proj2 (proj2 (word_count_adds_up ascii_isspace (lit "call me")
                           (lit "Ishmael") 32%N))).
    reflexivity.
Defined.

(** A small book: the letters by decreasing count, ties in the order of
    first appearance, and the lines of the report. *)
Example small_book_table :
  sort_dict ascii_isalpha (get_uniq_char_count ascii_lower (lit "Abba, cab!")) =
    [mkCharNum 97 3; mkCharNum 98 3; mkCharNum 99 1].
Proof. vm_compute. reflexivity. Qed.

Example small_book_words :
  get_num_words ascii_isspace (lit "Abba, cab!") = 2.
Proof. vm_compute. reflexivity. Qed.

Lemma test_mode_runs_the_same_action_witness :
  let g := fresh_gui loading_script in
  let d : gmap string PyVal :=
    list_to_map [("name", VStr "btn"); ("path", VStr "t.png")] in
  let name := py_str test_builtins (default (VStr "template") (d !! "name")) in
  let path := py_str test_builtins (default (VStr "") (d !! "path")) in
  calls (_execute_action test_builtins reading_providers 0 false g).2 = calls g ∧
  calls (_execute_action test_builtins reading_providers 0 true g).2 =
    (calls g ++ [EvTemplatesListInsert (name +:+ " -> " +:+ path)])%list.
Proof.
  intros g d.
  refine (proj1 (proj2 (test_mode_runs_the_same_action test_builtins
                          reading_providers 0 g))
            (action "LOAD_TEMPLATE" [("name", VStr "btn"); ("path", VStr "t.png")])
            d test_template _ _ _ _ _).
  - vm_compute. split; congruence.
  - reflexivity.
  - reflexivity.
  - reflexivity.
  - vm_compute. reflexivity.
Defined.

(** The line test mode adds for the template file. *)
Example test_mode_lists_the_template :
  calls (_execute_action test_builtins reading_providers 0 true
           (fresh_gui loading_script)).2 = [EvTemplatesListInsert "btn -> t.png"] ∧
  calls (_execute_action test_builtins reading_providers 0 false
           (fresh_gui loading_script)).2 = [].
Proof. vm_compute. split; reflexivity. Qed.

(** [stop_script] called while the last action runs: the run is done, and
    the stop flag stays set. Called one action earlier, the run stops. *)
Example stop_during_last_action_ends_done :
  let late := run_script test_builtins test_providers [false; false; true]
                (fresh_gui straight_script) in
  let early := run_script test_builtins test_providers [false; true; false]
                 (fresh_gui straight_script) in
  (run_state late = DONE ∧ stop_flag (gui late) = true ∧
   status_var (gui late) = "Done" ∧ fetched late = [0; 1]) ∧
  (run_state early = STOPPED ∧ stop_flag (gui early) = true ∧
   status_var (gui early) = "Stopped" ∧ fetched early = [0]).
Proof. vm_compute. repeat split; reflexivity. Qed.

Lemma click_match_action_clicks_or_tells_witness :
  calls (_execute_action test_builtins test_providers 0 false
           (busy_gui click_script)).2 = [EvClick 14 22 2 "left" 0.05] ∧
  calls (_execute_action test_builtins test_providers 0 false
           (fresh_gui click_script)).2 =
    [EvShowInfo "CLICK_MATCH" "No last match to click."].
Proof.
  split.
  - destruct (click_match_action_clicks_or_tells test_builtins test_providers
                0 false (busy_gui click_script)
                (action "CLICK_MATCH" [("clicks", VInt 2); ("offset_x", VInt 1)])
                (list_to_map [("clicks", VInt 2); ("offset_x", VInt 1)])
                2 0.05 1 0)
      as (_ & _ & Hcalls).
    + vm_compute. split; congruence.
    + reflexivity.
    + reflexivity.
    + reflexivity.
    + vm_compute. reflexivity.
    + vm_compute. reflexivity.
    + vm_compute. reflexivity.
    + vm_compute. reflexivity.
    + exact Hcalls.
  - destruct (click_match_action_clicks_or_tells test_builtins test_providers
                0 false (fresh_gui click_script)
                (action "CLICK_MATCH" [("clicks", VInt 2); ("offset_x", VInt 1)])
                (list_to_map [("clicks", VInt 2); ("offset_x", VInt 1)])
                2 0.05 1 0)
      as (_ & _ & Hcalls).
    + vm_compute. split; congruence.
    + reflexivity.
    + reflexivity.
    + reflexivity.
    + vm_compute. reflexivity.
    + vm_compute. reflexivity.
    + vm_compute. reflexivity.
    + vm_compute. reflexivity.
    + exact Hcalls.
Defined.

Lemma new_script_resets_script_and_match_witness :
  (let g' := (new_script true (busy_gui straight_script)).2 in
   actions g' = [] ∧ last_match (runtime g') = None ∧
   templates (runtime g') = {["ok" := test_template]}) ∧
  (new_script false (busy_gui straight_script)).2 = busy_gui straight_script.
Proof.
  split.
  - intros g'.
    destruct (proj1 (new_script_resets_script_and_match true
                       (busy_gui straight_script)))
      as (Hacts & _ & Hmatch & Htemplates & _).
    + reflexivity.
    + exact (conj Hacts (conj Hmatch Htemplates)).
  - apply (proj2 (new_script_resets_script_and_match false
                    (busy_gui straight_script))).
    reflexivity.
Defined.

(** The form texts ["TRUE"] and ["0"]: the variable ["True"] is set to the
    integer 0. *)
Example editor_casts_name_and_value :
  vars (runtime
          (_execute_action test_builtins test_providers 0 false
             (add_action test_builtins "SET_VAR" [("name", "TRUE"); ("value", "0")]
                (fresh_gui [])).2).2)
    !! "True" = Some (VInt 0).
Proof. vm_compute. reflexivity. Qed.
